(** * OpenSCM parameter views: a shallow embedding of [openscm/core/views.py]

    The views are the only way client code touches parameter data.  This
    development embeds the classes of [views.py] ([ParameterView],
    [ScalarView], [WritableScalarView], [TimeseriesView],
    [WritableTimeseriesView], [GenericView], [WritableGenericView] and the
    array wrapper [_Timeseries]) and states the properties of the
    specification about them.

    Conventions of the embedding:
    - a Python [float] is a rational number ([Q]); a one-dimensional numpy
      array is a [list Q];
    - a Python [int] is a [Z];
    - an exception is a value of [exn]; a method that can raise returns a
      [result]; a method that mutates [self] or a parameter returns the new
      state next to its result, also when it raises (Python keeps the
      mutations made before the exception);
    - a [_Parameter] object is identified by [pid]; its mutable attributes
      live in a [store], so that two views over one parameter alias. *)

From Stdlib Require Import String List ZArith QArith Bool Lia.
Import ListNotations.

Set Implicit Arguments.
#[local] Set Warnings "-register-all".

(** ** Exceptions and results *)

Inductive exn : Type :=
| ParameterEmptyError
| ParameterReadonlyError
| ParameterTypeError
| TimeseriesPointsValuesMismatchError
| InsufficientDataError
| DimensionalityError
| NotImplementedError
| AttributeError
| TypeError
| ValueError
| IndexError.

Inductive result (A : Type) : Type :=
| Ok (a : A)
| Raise (e : exn).

Arguments Ok {A} a.
Arguments Raise {A} e.

Definition bind {A B : Type} (r : result A) (k : A -> result B) : result B :=
  match r with
  | Ok a => k a
  | Raise e => Raise e
  end.

Declare Scope py_scope.
Delimit Scope py_scope with py.
Notation "x <- r ;; k" := (bind r (fun x => k))
  (at level 61, r at next level, right associativity) : py_scope.
Open Scope py_scope.

Definition is_ok {A : Type} (r : result A) : bool :=
  match r with Ok _ => true | Raise _ => false end.

Definition raises {A : Type} (r : result A) (e : exn) : Prop := r = Raise e.

(** ** The parameter store *)

(** A value held in [_Parameter.data]: nothing yet, a scalar, an array or
    any other object (a generic parameter holds anything). *)
Inductive pydata : Type :=
| PNone
| PFloat (x : Q)
| PArray (xs : list Q)
| PObject (s : string).

(** Modelled from the spec: the class [_Parameter] (parameters.py is not
    among the sources).  [views.py] reads [children], [info.unit],
    [time_points], [has_been_written_to], [data] and [version], and assigns
    [data] and [version]; it never changes the tree.  The tree is therefore
    an inductive value and the assignable attributes are a [cell] of the
    store, found by [pid].  [children] lists the values of the children
    dictionary in insertion order. *)
Inductive _Parameter : Type := mk_Parameter {
  pid : nat;
  info_unit : string;
  time_points : list Z;
  children : list _Parameter
}.

Record cell : Type := mkCell {
  has_been_written_to : bool;
  data : pydata;
  version : Z
}.

Definition store : Type := nat -> cell.

Definition upd (s : store) (i : nat) (c : cell) : store :=
  fun j => if Nat.eqb j i then c else s j.

Definition set_data (c : cell) (d : pydata) : cell :=
  mkCell (has_been_written_to c) d (version c).

Definition set_version (c : cell) (v : Z) : cell :=
  mkCell (has_been_written_to c) (data c) v.

(** A parameter that was never touched. *)
Definition fresh_cell : cell := mkCell false PNone 0.
Definition empty_store : store := fun _ => fresh_cell.

(** Modelled from the spec: [_Parameter.attempt_write] (parameters.py is not
    among the sources): "fails with a read-only error if the node has
    children; ...; marks has_been_written_to; increments version".  The type
    check is left out, the store holds no parameter type. *)
Definition attempt_write (parameter : _Parameter) (s : store) : result store :=
  match children parameter with
  | _ :: _ => Raise ParameterReadonlyError
  | [] =>
      let c := s (pid parameter) in
      Ok (upd s (pid parameter) (mkCell true (data c) (version c + 1)))
  end.

(** The leaf descendants of a parameter, depth first, in the order of the
    children dictionaries; a parameter without children is its own leaf. *)
Fixpoint leaves (parameter : _Parameter) : list _Parameter :=
  match children parameter with
  | [] => [parameter]
  | cs =>
      (fix over (l : list _Parameter) : list _Parameter :=
         match l with
         | [] => []
         | p :: rest => leaves p ++ over rest
         end) cs
  end.

(** ** Unit conversion *)

(** Modelled from the spec: [UnitConverter] (units.py is not among the
    sources).  A converter knows its two units and converts between them;
    the conversion functions come from the unit registry, which raises an
    error of its own for a pair of units it cannot convert (units that are
    not commensurable, a unit it does not know). *)
Record UnitConverter : Type := mkUnitConverter {
  uc_source : string;
  uc_target : string;
  uc_convert_from : Q -> Q;
  uc_convert_to : Q -> Q
}.

Definition registry : Type := string -> string -> result ((Q -> Q) * (Q -> Q)).

Definition new_UnitConverter (reg : registry) (source target : string)
  : result UnitConverter :=
  match reg source target with
  | Ok (f, g) => Ok (mkUnitConverter source target f g)
  | Raise e => Raise e
  end.

(** ** [ParameterView.empty] *)

(** [return not self._parameter.has_been_written_to] *)
Definition empty (s : store) (parameter : _Parameter) : bool :=
  negb (has_been_written_to (s (pid parameter))).

(** ** Scalar views *)

(** The attributes of a [ScalarView] ([WritableScalarView] adds none).
    [_child_data_views] is only assigned when the parameter has children at
    construction, hence the option. *)
Inductive ScalarView : Type := mkScalarView {
  sv_parameter : _Parameter;
  sv_unit_converter : UnitConverter;
  sv_child_data_views : option (list ScalarView)
}.

Section ScalarViews.

Variable reg : registry.

  (** The local function of [ScalarView.__init__]; [target] is
      [self._unit_converter.target].  A leaf yields [ScalarView(parameter,
      target)], whose own [__init__] assigns no child views. *)
Fixpoint get_data_views_for_children_or_parameter
      (target : string) (parameter : _Parameter) : result (list ScalarView) :=
    match children parameter with
    | [] =>
        uc <- new_UnitConverter reg (info_unit parameter) target ;;
        Ok [mkScalarView parameter uc None]
    | cs =>
        (fix over (l : list _Parameter) : result (list ScalarView) :=
           match l with
           | [] => Ok []
           | p :: rest =>
               vs <- get_data_views_for_children_or_parameter target p ;;
               ws <- over rest ;;
               Ok (vs ++ ws)
           end) cs
    end.

  (** [ScalarView.__init__(parameter, unit)] *)
Definition new_ScalarView (parameter : _Parameter) (unit : string)
    : result ScalarView :=
    uc <- new_UnitConverter reg (info_unit parameter) unit ;;
    match children parameter with
    | [] => Ok (mkScalarView parameter uc None)
    | _ :: _ =>
        vs <- get_data_views_for_children_or_parameter (uc_target uc) parameter ;;
        Ok (mkScalarView parameter uc (Some vs))
    end.

End ScalarViews.

(** [ScalarView.value] (getter).  [sum] starts from 0 and adds the child
    values from left to right; reading [_child_data_views] on a view whose
    [__init__] did not assign it is an [AttributeError].  Stored data that is
    not a scalar is outside the typed use of the view and ends in
    [TypeError]. *)
Fixpoint ScalarView_value (s : store) (self : ScalarView) : result Q :=
  match children (sv_parameter self) with
  | _ :: _ =>
      match sv_child_data_views self with
      | None => Raise AttributeError
      | Some vs =>
          (fix sum (l : list ScalarView) (acc : Q) : result Q :=
             match l with
             | [] => Ok acc
             | v :: rest =>
                 x <- ScalarView_value s v ;;
                 sum rest (Qplus acc x)
             end) vs 0%Q
      end
  | [] =>
      if empty s (sv_parameter self) then Raise ParameterEmptyError
      else
        match data (s (pid (sv_parameter self))) with
        | PFloat x => Ok (uc_convert_from (sv_unit_converter self) x)
        | _ => Raise TypeError
        end
  end.

(** [WritableScalarView.value] (setter):
    [self._parameter.data = self._unit_converter.convert_to(v)] *)
Definition WritableScalarView_set_value (s : store) (self : ScalarView) (v : Q)
  : result store :=
  let i := pid (sv_parameter self) in
  Ok (upd s i (set_data (s i) (PFloat (uc_convert_to (sv_unit_converter self) v)))).

(** ** Generic views *)

Record GenericView : Type := mkGenericView {
  gv_parameter : _Parameter
}.

(** [GenericView.value] (getter) *)
Definition GenericView_value (s : store) (self : GenericView) : result pydata :=
  if empty s (gv_parameter self) then Raise ParameterEmptyError
  else Ok (data (s (pid (gv_parameter self)))).

(** [WritableGenericView.value] (setter): [self._parameter.data = v] *)
Definition WritableGenericView_set_value
    (s : store) (self : GenericView) (v : pydata) : result store :=
  let i := pid (gv_parameter self) in
  Ok (upd s i (set_data (s i) v)).

(** ** numpy on one-dimensional arrays *)

(** [np.add(a, b)]: elementwise, a one-element array is broadcast, any
    other pair of different lengths is a [ValueError]. *)
Definition np_add (a b : list Q) : result (list Q) :=
  if Nat.eqb (length a) (length b)
  then Ok (map (fun xy => Qplus (fst xy) (snd xy)) (combine a b))
  else
    match a, b with
    | [x], _ => Ok (map (fun y => Qplus x y) b)
    | _, [y] => Ok (map (fun x => Qplus x y) a)
    | _, _ => Raise ValueError
    end.

(** The element types of the arrays that reach a view: an array of Python
    integers is [int64], an array of floats is [float64].  The items of
    either are rationals here; those of an [int64] array are integers. *)
Inductive dtype : Type :=
| int64
| float64.

(** [np.can_cast(src, dst, casting="same_kind")] on the two element
    types: only the cast from [float64] to [int64] is refused. *)
Definition can_cast (src dst : dtype) : bool :=
  match src, dst with
  | float64, int64 => false
  | _, _ => true
  end.

(** [np.copyto(dst, src)]: the new contents of the buffer [dst].  The
    default casting rule is [same_kind]: a [float64] source is refused for
    an [int64] buffer with a [TypeError], before anything is copied. *)
Definition np_copyto (dst_dtype : dtype) (dst : list Q)
    (src_dtype : dtype) (src : list Q) : result (list Q) :=
  if can_cast src_dtype dst_dtype then
    if Nat.eqb (length src) (length dst) then Ok src
    else
      match src with
      | [x] => Ok (repeat x (length dst))
      | _ => Raise ValueError
      end
  else Raise TypeError.

(** The value an item assignment [a[key] = val] stores in an array of the
    given element type: an [int64] array keeps the integer part of [val],
    rounded towards zero. *)
Definition np_cast (d : dtype) (val : Q) : Q :=
  match d with
  | float64 => val
  | int64 => inject_Z (Z.quot (Qnum val) (Z.pos (Qden val)))
  end.

(** An integer index into an array of length [n], negative indices count
    from the end. *)
Definition py_index (n : nat) (key : Z) : option nat :=
  if (0 <=? key)%Z && (key <? Z.of_nat n)%Z then Some (Z.to_nat key)
  else if (- Z.of_nat n <=? key)%Z && (key <? 0)%Z
       then Some (Z.to_nat (key + Z.of_nat n))
       else None.

(** The array with the element at position [i] replaced by [x]; the cast
    of a value to the element type of the array is [np_cast], which
    [__setitem__] applies first. *)
Fixpoint list_set (l : list Q) (i : nat) (x : Q) : list Q :=
  match l, i with
  | [], _ => []
  | _ :: t, O => x :: t
  | h :: t, S j => h :: list_set t j x
  end.

(** ** Timeseries conversion, as the views use it *)

Inductive ParameterType : Type :=
| SCALAR
| POINT_TIMESERIES
| AVERAGE_TIMESERIES
| GENERIC.

Inductive InterpolationType : Type :=
| Interpolation_LINEAR.

Inductive ExtrapolationType : Type :=
| Extrapolation_NONE
| Extrapolation_CONSTANT
| Extrapolation_LINEAR.

(** What a view uses of its [TimeseriesConverter] (time.py is not among the
    sources): the target grid, [target_length], [convert_from] and
    [convert_to]. *)
Record TimeseriesConverter : Type := mkTimeseriesConverter {
  tc_target : list Z;
  tc_target_length : nat;
  tc_convert_from : list Q -> result (list Q);
  tc_convert_to : list Q -> result (list Q)
}.

Definition converter_factory : Type :=
  list Z -> list Z -> ParameterType -> InterpolationType -> ExtrapolationType ->
  result TimeseriesConverter.

(** ** Timeseries views *)

(** The attributes of a [TimeseriesView].  [tv_writable] tells the class
    ([WritableTimeseriesView] or [TimeseriesView]).  [_data] is the buffer of
    the view; the [_Timeseries] wrapper in [_timeseries] holds the same
    buffer ([np.asarray] of an array is that array, and the buffer is only
    changed in place), so the wrapper is modelled by its presence.
    [_version] is not assigned by [__init__], hence the option.  [tv_dtype]
    is the element type of the buffer; it has a meaning only while
    [tv_data] holds a buffer. *)
Inductive TimeseriesView : Type := mkTimeseriesView {
  tv_writable : bool;
  tv_parameter : _Parameter;
  tv_unit_converter : UnitConverter;
  tv_timeseries_converter : TimeseriesConverter;
  tv_data : option (list Q);
  tv_timeseries : bool;
  tv_version : option Z;
  tv_child_data_views : option (list TimeseriesView);
  tv_dtype : dtype
}.

Definition set_tv_data (self : TimeseriesView) (d : option (list Q)) : TimeseriesView :=
  mkTimeseriesView (tv_writable self) (tv_parameter self) (tv_unit_converter self)
    (tv_timeseries_converter self) d (tv_timeseries self) (tv_version self)
    (tv_child_data_views self) (tv_dtype self).

Definition set_tv_timeseries (self : TimeseriesView) (b : bool) : TimeseriesView :=
  mkTimeseriesView (tv_writable self) (tv_parameter self) (tv_unit_converter self)
    (tv_timeseries_converter self) (tv_data self) b (tv_version self)
    (tv_child_data_views self) (tv_dtype self).

Definition set_tv_version (self : TimeseriesView) (k : option Z) : TimeseriesView :=
  mkTimeseriesView (tv_writable self) (tv_parameter self) (tv_unit_converter self)
    (tv_timeseries_converter self) (tv_data self) (tv_timeseries self) k
    (tv_child_data_views self) (tv_dtype self).

Definition set_tv_child_data_views
    (self : TimeseriesView) (vs : option (list TimeseriesView)) : TimeseriesView :=
  mkTimeseriesView (tv_writable self) (tv_parameter self) (tv_unit_converter self)
    (tv_timeseries_converter self) (tv_data self) (tv_timeseries self)
    (tv_version self) vs (tv_dtype self).

Definition set_tv_dtype (self : TimeseriesView) (d : dtype) : TimeseriesView :=
  mkTimeseriesView (tv_writable self) (tv_parameter self) (tv_unit_converter self)
    (tv_timeseries_converter self) (tv_data self) (tv_timeseries self)
    (tv_version self) (tv_child_data_views self) d.

Section TimeseriesViewInit.

Variable reg : registry.
Variable new_TimeseriesConverter : converter_factory.

  (** The local function of [TimeseriesView.__init__]; a leaf yields a
      read-only [TimeseriesView] on the target unit and grid of the outer
      view. *)
Fixpoint get_timeseries_views_for_children_or_parameter
      (target_unit : string) (target : list Z) (timeseries_type : ParameterType)
      (interpolation_type : InterpolationType)
      (extrapolation_type : ExtrapolationType)
      (parameter : _Parameter) : result (list TimeseriesView) :=
    match children parameter with
    | [] =>
        uc <- new_UnitConverter reg (info_unit parameter) target_unit ;;
        tc <- new_TimeseriesConverter (time_points parameter) target
                timeseries_type interpolation_type extrapolation_type ;;
        Ok [mkTimeseriesView false parameter uc tc None false None None float64]
    | cs =>
        (fix over (l : list _Parameter) : result (list TimeseriesView) :=
           match l with
           | [] => Ok []
           | p :: rest =>
               vs <- get_timeseries_views_for_children_or_parameter
                       target_unit target timeseries_type interpolation_type
                       extrapolation_type p ;;
               ws <- over rest ;;
               Ok (vs ++ ws)
           end) cs
    end.

  (** [TimeseriesView.__init__] ([writable = false]) and
      [WritableTimeseriesView.__init__] ([writable = true], the inherited
      constructor). *)
Definition new_TimeseriesView (writable : bool) (parameter : _Parameter)
      (unit : string) (tps : list Z) (timeseries_type : ParameterType)
      (interpolation_type : InterpolationType)
      (extrapolation_type : ExtrapolationType) : result TimeseriesView :=
    uc <- new_UnitConverter reg (info_unit parameter) unit ;;
    tc <- new_TimeseriesConverter (time_points parameter) tps
            timeseries_type interpolation_type extrapolation_type ;;
    match children parameter with
    | [] => Ok (mkTimeseriesView writable parameter uc tc None false None None float64)
    | _ :: _ =>
        vs <- get_timeseries_views_for_children_or_parameter
                (uc_target uc) (tc_target tc) timeseries_type
                interpolation_type extrapolation_type parameter ;;
        Ok (mkTimeseriesView writable parameter uc tc None false None (Some vs) float64)
    end.

End TimeseriesViewInit.

(** A method of a view returns its result and the view after the call. *)
Definition viewM (A : Type) : Type := (result A * TimeseriesView)%type.

(** [np.sum(v.values for v in self._child_data_views)], given the [_read]
    of the child views.  numpy hands a generator to the builtin [sum]:
    the accumulator starts as the integer 0 ([None] here), [0 + ts] is
    [_Timeseries.__radd__] and adds to the buffer as it is, every later
    [acc + ts] goes through [__array_ufunc__], which calls [ts.__read__()]
    first.  [v.values] itself calls [_read] only while the wrapper is
    missing.  A [_read] directly after a successful [_read] changes nothing
    (see [TimeseriesView__read_again]), so a later child is read once. *)
Fixpoint sum_child_values (read : TimeseriesView -> viewM unit)
    (l : list TimeseriesView) (acc : option (list Q))
  : result (list Q) * list TimeseriesView :=
  match l with
  | [] =>
      (match acc with Some a => Ok a | None => Raise TypeError end, [])
  | v :: rest =>
      match acc with
      | None =>
          let '(r, v1) :=
            if tv_timeseries v then (Ok tt, v)
            else
              let '(r, v1) := read v in
              match r with
              | Ok _ => (Ok tt, set_tv_timeseries v1 true)
              | Raise e => (Raise e, v1)
              end in
          match r with
          | Raise e => (Raise e, v1 :: rest)
          | Ok _ =>
              match tv_data v1 with
              | None => (Raise TypeError, v1 :: rest)
              | Some a =>
                  let '(r', rest') :=
                    sum_child_values read rest (Some (map (Qplus 0) a)) in
                  (r', v1 :: rest')
              end
          end
      | Some a0 =>
          let '(r, v1) := read v in
          match r with
          | Raise e => (Raise e, v1 :: rest)
          | Ok _ =>
              let v2 := set_tv_timeseries v1 true in
              match tv_data v2 with
              | None => (Raise TypeError, v2 :: rest)
              | Some a =>
                  match np_add a0 a with
                  | Raise e => (Raise e, v2 :: rest)
                  | Ok a1 =>
                      let '(r', rest') := sum_child_values read rest (Some a1) in
                      (r', v2 :: rest')
                  end
              end
          end
      end
  end.

(** [TimeseriesView._get_values], given the [_read] of the child views. *)
Definition get_values_with (read : TimeseriesView -> viewM unit)
    (s : store) (self : TimeseriesView) : viewM (list Q) :=
  match children (tv_parameter self) with
  | _ :: _ =>
      match tv_child_data_views self with
      | None => (Raise AttributeError, self)
      | Some vs =>
          let '(r, vs') := sum_child_values read vs None in
          (r, set_tv_child_data_views self (Some vs'))
      end
  | [] =>
      if empty s (tv_parameter self) then (Raise ParameterEmptyError, self)
      else
        match data (s (pid (tv_parameter self))) with
        | PArray xs =>
            (tc_convert_from (tv_timeseries_converter self)
               (map (uc_convert_from (tv_unit_converter self)) xs), self)
        | _ => (Raise TypeError, self)
        end
  end.

(** [TimeseriesView._read], given [_get_values].  The array [_get_values]
    returns comes out of the converters or out of the sum of such arrays,
    it is a [float64] array. *)
Definition read_with (get_values : TimeseriesView -> viewM (list Q))
    (s : store) (self : TimeseriesView) : viewM unit :=
  let current := version (s (pid (tv_parameter self))) in
  match tv_data self with
  | None =>
      let '(r, self1) := get_values self in
      match r with
      | Raise e => (Raise e, self1)
      | Ok a =>
          (Ok tt,
           set_tv_version (set_tv_dtype (set_tv_data self1 (Some a)) float64)
             (Some current))
      end
  | Some d =>
      match tv_version self with
      | None => (Raise AttributeError, self)
      | Some k =>
          if Z.eqb k current then (Ok tt, set_tv_version self (Some current))
          else
            let '(r, self1) := get_values self in
            match r with
            | Raise e => (Raise e, self1)
            | Ok a =>
                match np_copyto (tv_dtype self) d float64 a with
                | Raise e => (Raise e, self1)
                | Ok d' =>
                    (Ok tt, set_tv_version (set_tv_data self1 (Some d')) (Some current))
                end
            end
      end
  end.

Fixpoint TimeseriesView__read (s : store) (self : TimeseriesView) {struct self}
  : viewM unit :=
  read_with (get_values_with (TimeseriesView__read s) s) s self.

Definition TimeseriesView__get_values (s : store) (self : TimeseriesView)
  : viewM (list Q) :=
  get_values_with (TimeseriesView__read s) s self.

(** [TimeseriesView.values] (getter): [_read] runs only while no wrapper
    exists; the wrapper returned is the view's buffer [tv_data]. *)
Definition TimeseriesView_values (s : store) (self : TimeseriesView) : viewM unit :=
  if tv_timeseries self then (Ok tt, self)
  else
    let '(r, self1) := TimeseriesView__read s self in
    match r with
    | Ok _ => (Ok tt, set_tv_timeseries self1 true)
    | Raise e => (Raise e, self1)
    end.


(** A method that may also assign to the parameter returns the store too. *)
Definition viewS (A : Type) : Type := (result A * TimeseriesView * store)%type.

(** [TimeseriesView._write] raises [NotImplementedError];
    [WritableTimeseriesView._write] converts the buffer back, assigns it to
    the parameter and bumps the version. *)
Definition TimeseriesView__write (s : store) (self : TimeseriesView) : viewS unit :=
  if tv_writable self then
    match tv_data self with
    | None => (Raise TypeError, self, s)
    | Some d =>
        match tc_convert_to (tv_timeseries_converter self)
                (map (uc_convert_to (tv_unit_converter self)) d) with
        | Raise e => (Raise e, self, s)
        | Ok a =>
            let i := pid (tv_parameter self) in
            let s1 := upd s i (set_data (s i) (PArray a)) in
            let s2 := upd s1 i (set_version (s1 i) (version (s1 i) + 1)) in
            (Ok tt, set_tv_version self (Some (version (s2 i))), s2)
        end
    end
  else (Raise NotImplementedError, self, s).

(** [WritableTimeseriesView.values] (setter); [dt] is the element type of
    [np.asarray(v)], which the first assignment gives to the buffer.  The
    property of the read-only class has no setter, assigning to it is an
    [AttributeError]. *)
Definition WritableTimeseriesView_set_values
    (s : store) (self : TimeseriesView) (dt : dtype) (v : list Q) : viewS unit :=
  if negb (tv_writable self) then (Raise AttributeError, self, s)
  else if negb (Nat.eqb (length v) (tc_target_length (tv_timeseries_converter self)))
  then (Raise TimeseriesPointsValuesMismatchError, self, s)
  else
    match tv_data self with
    | None =>
        TimeseriesView__write s
          (set_tv_timeseries (set_tv_dtype (set_tv_data self (Some v)) dt) true)
    | Some d =>
        match np_copyto (tv_dtype self) d dt v with
        | Raise e => (Raise e, self, s)
        | Ok d' => TimeseriesView__write s (set_tv_data self (Some d'))
        end
    end.

(** ** The wrapper [_Timeseries]

    A wrapper is reached through [values]; its [_ndarray] is the buffer of
    its view and [_parameter_view] is the view, so its methods are functions
    of the view.  They are called on a view that has a buffer; without one
    there is no wrapper to call them on ([TypeError] here). *)

(** [__read__]: [self._parameter_view._read()] *)
Definition Timeseries___read__ (s : store) (view : TimeseriesView) : viewM unit :=
  TimeseriesView__read s view.

(** [__write__]: [self._parameter_view._write()] *)
Definition Timeseries___write__ (s : store) (view : TimeseriesView) : viewS unit :=
  TimeseriesView__write s view.

(** [__iter__]: [__read__] and then every element of the buffer. *)
Definition Timeseries___iter__ (s : store) (view : TimeseriesView) : viewM (list Q) :=
  let '(r, view1) := Timeseries___read__ s view in
  match r with
  | Raise e => (Raise e, view1)
  | Ok _ =>
      match tv_data view1 with
      | Some a => (Ok a, view1)
      | None => (Raise TypeError, view1)
      end
  end.

(** [__getitem__] with an integer: [__read__] and then the element. *)
Definition Timeseries___getitem__ (s : store) (view : TimeseriesView) (item : Z)
  : viewM Q :=
  let '(r, view1) := Timeseries___read__ s view in
  match r with
  | Raise e => (Raise e, view1)
  | Ok _ =>
      match tv_data view1 with
      | Some a =>
          match py_index (length a) item with
          | Some i => (match nth_error a i with
                       | Some x => Ok x
                       | None => Raise IndexError
                       end, view1)
          | None => (Raise IndexError, view1)
          end
      | None => (Raise TypeError, view1)
      end
  end.

(** [__array__]: [np.asarray(self._ndarray)], without [__read__]. *)
Definition Timeseries___array__ (view : TimeseriesView) : result (list Q) :=
  match tv_data view with
  | Some a => Ok a
  | None => Raise TypeError
  end.


(** [__setitem__] with an integer key:
    [self._ndarray[key] = val; self.__write__()].  The item assignment of
    numpy casts [val] to the element type of the array. *)
Definition Timeseries___setitem__
    (s : store) (view : TimeseriesView) (key : Z) (val : Q) : viewS unit :=
  match tv_data view with
  | None => (Raise TypeError, view, s)
  | Some a =>
      match py_index (length a) key with
      | None => (Raise IndexError, view, s)
      | Some i =>
          Timeseries___write__ s
            (set_tv_data view
               (Some (list_set a i (np_cast (tv_dtype view) val))))
      end
  end.

(** Reading a view as client code does: take [view.values] and iterate it
    ([list(view.values)], [view.values[:]]). *)
Definition read_values (s : store) (view : TimeseriesView) : viewM (list Q) :=
  let '(r, view1) := TimeseriesView_values s view in
  match r with
  | Raise e => (Raise e, view1)
  | Ok _ => Timeseries___iter__ s view1
  end.

(** Reading a view through numpy: [np.asarray(view.values)]. *)
Definition asarray_values (s : store) (view : TimeseriesView) : viewM (list Q) :=
  let '(r, view1) := TimeseriesView_values s view in
  match r with
  | Raise e => (Raise e, view1)
  | Ok _ => (Timeseries___array__ view1, view1)
  end.

(** ** The timeseries converter of the specification *)

Module Time.

  (** Modelled from the spec: [TimeseriesConverter] (time.py is not among
      the sources).  "Construct with (source_time_points,
      target_time_points, timeseries_type, interpolation_type,
      extrapolation_type)." *)
Record converter : Type := mkConverter {
    _source : list Z;
    _target : list Z;
    _timeseries_type : ParameterType;
    _interpolation_type : InterpolationType;
    _extrapolation_type : ExtrapolationType
  }.

  (** Modelled from the spec: "fails with an insufficient-data error if
      the source array has [too few] points".  The number is the one
      [test_short_data] fixes: for every kind of series the arrays [[]],
      [[0]] and [[0, 1]] are refused, so fewer than three values are too
      few. *)
Definition too_short (timeseries_type : ParameterType) (values : list Q) : bool :=
    Nat.ltb (length values) 3.

  (** Modelled from the spec: a time point "lies outside the span covered
      by source time points"; grids are ordered. *)
Definition outside (source : list Z) (t : Z) : bool :=
    match source with
    | [] => true
    | t0 :: _ => (t <? t0)%Z || (last source t0 <? t)%Z
    end.

  (** Modelled from the spec: the straight line through [(t0, v0)] and
      [(t1, v1)], the piece of a "LINEAR piecewise interpolation". *)
Definition line (t0 t1 : Z) (v0 v1 : Q) (t : Z) : Q :=
    v0 + (v1 - v0) * (inject_Z (t - t0) / inject_Z (t1 - t0)).

  (** Modelled from the spec: "LINEAR piecewise interpolation between
      bracketing source points". *)
Fixpoint bracket (ts : list Z) (vs : list Q) (t : Z) : option Q :=
    match ts, vs with
    | t0 :: ts', v0 :: vs' =>
        match ts', vs' with
        | t1 :: _, v1 :: _ =>
            if (t0 <=? t)%Z && (t <=? t1)%Z then Some (line t0 t1 v0 v1 t)
            else bracket ts' vs' t
        | _, _ => if (t =? t0)%Z then Some v0 else None
        end
    | _, _ => None
    end.

  (** Modelled from the spec: the line through the first two points of a
      series, for "LINEAR: extend edge slope". *)
Definition edge_line (ts : list Z) (vs : list Q) (t : Z) : Q :=
    match ts, vs with
    | t0 :: t1 :: _, v0 :: v1 :: _ => line t0 t1 v0 v1 t
    | _, _ => hd 0 vs
    end.

  (** Modelled from the spec: "CONSTANT: hold edge value, LINEAR: extend
      edge slope", for a point outside the source span. *)
Definition extrapolate (e : ExtrapolationType)
      (ts : list Z) (vs : list Q) (t : Z) : Q :=
    let before := (t <? hd 0%Z ts)%Z in
    match e with
    | Extrapolation_LINEAR =>
        if before then edge_line ts vs t else edge_line (rev ts) (rev vs) t
    | _ => if before then hd 0 vs else last vs 0
    end.

  (** Modelled from the spec: the value of a point series at the time [t],
      interpolated inside the source span and extrapolated outside it. *)
Definition point_value (e : ExtrapolationType)
      (ts : list Z) (vs : list Q) (t : Z) : Q :=
    match bracket ts vs t with
    | Some x => x
    | None => extrapolate e ts vs t
    end.

Section Convert.

    (** Modelled from the spec: the resampling of an average series
        ("reconstruct a
        piecewise-constant-rate curve per source interval, then
        re-integrate over each target interval") is kept abstract: a
        function of the extrapolation type, the two grids and the values. *)
Variable average_resample :
      ExtrapolationType -> list Z -> list Z -> list Q -> list Q.

    (** Modelled from the spec: the resampling itself, by the convention of
        the series. *)
Definition resample (c : converter) (source target : list Z) (values : list Q)
      : list Q :=
      match _timeseries_type c with
      | AVERAGE_TIMESERIES =>
          average_resample (_extrapolation_type c) source target values
      | _ => map (point_value (_extrapolation_type c) source values) target
      end.

    (** Modelled from the spec: the conversion of [values] on the grid
        [source] to the grid [target].  It "fails with an insufficient-data
        error if the source array has" too few values ([too_short]), and
        "if any target time
        point lies outside the span covered by source time points, and
        extrapolation_type is NONE". *)
Definition _convert (c : converter) (values : list Q) (source target : list Z)
      : result (list Q) :=
      if too_short (_timeseries_type c) values then Raise InsufficientDataError
      else
        match _extrapolation_type c with
        | Extrapolation_NONE =>
            if existsb (outside source) target then Raise InsufficientDataError
            else Ok (resample c source target values)
        | _ => Ok (resample c source target values)
        end.

    (** Modelled from the spec: "convert_from(source_values): maps
        source-grid values to target-grid values." *)
Definition convert_from (c : converter) (values : list Q) : result (list Q) :=
      _convert c values (_source c) (_target c).

    (** Modelled from the spec: [convert_to], the way back from the target
        grid to the source grid ("and back"). *)
Definition convert_to (c : converter) (values : list Q) : result (list Q) :=
      _convert c values (_target c) (_source c).

    (** Modelled from the spec: "target_length exposes the number of target
        time points." *)
Definition target_length (c : converter) : nat := length (_target c).

    (** Modelled from the spec: the converter as a view holds it. *)
Definition for_view (c : converter) : TimeseriesConverter :=
      mkTimeseriesConverter (_target c) (target_length c)
        (convert_from c) (convert_to c).

    (** Modelled from the spec: the constructor [TimeseriesConverter(...)]. *)
Definition new_TimeseriesConverter : converter_factory :=
      fun source target timeseries_type interpolation_type extrapolation_type =>
        Ok (for_view (mkConverter source target timeseries_type
                        interpolation_type extrapolation_type)).

End Convert.

End Time.

(** ** The scenarios of the test suite *)

Module Scenario.

  (** A registry that knows "g" and "kg" and converts a unit to itself. *)
Definition units : registry :=
    fun source target =>
      if String.eqb source target then Ok (fun x => x, fun x => x)
      else if String.eqb source "g" && String.eqb target "kg"
      then Ok (fun x => x / 1000, fun x => x * 1000)
      else if String.eqb source "kg" && String.eqb target "g"
      then Ok (fun x => x * 1000, fun x => x / 1000)
      else Raise DimensionalityError.

Definition leaf (i : nat) (unit : string) : _Parameter :=
    mk_Parameter i unit [] [].

  (** The tree of [test_scalar_parameter_view_aggregation]:
      [(Top, a, 1)], [(Top, a, 2)] and [(Top, b)]. *)
Definition a_1 : _Parameter := leaf 2 "dimensionless".
Definition a_2 : _Parameter := leaf 3 "dimensionless".
Definition b : _Parameter := leaf 4 "dimensionless".
Definition a : _Parameter := mk_Parameter 1 "dimensionless" [] [a_1; a_2].
Definition Top : _Parameter := mk_Parameter 0 "dimensionless" [] [a; b].

Definition written (x : Q) : cell := mkCell true (PFloat x) 1.

  (** The store after 0.6, 0.3 and 0.1 were written to the three leaves. *)
Definition after_writes : store :=
    upd (upd (upd empty_store 2 (written (6 # 10))) 3 (written (3 # 10)))
      4 (written (1 # 10)).

  (** A writable view of [(Top, a)], as [scalar(("Top", "a"),
      "dimensionless")] hands it out. *)
Definition view_of_a : ScalarView :=
    mkScalarView a (mkUnitConverter "dimensionless" "dimensionless"
                      (fun x => x) (fun x => x))
      (Some [mkScalarView a_1 (mkUnitConverter "dimensionless" "dimensionless"
                                 (fun x => x) (fun x => x)) None;
             mkScalarView a_2 (mkUnitConverter "dimensionless" "dimensionless"
                                 (fun x => x) (fun x => x)) None]).

  (** The parameter of [test_version] and [test_scalar_parameter_view]. *)
Definition example : _Parameter := leaf 7 "g".

Definition view_in (unit : string) (f g : Q -> Q) : ScalarView :=
    mkScalarView example (mkUnitConverter "g" unit f g) None.

Definition v1 : ScalarView := view_in "g" (fun x => x) (fun x => x).
Definition v2 : ScalarView :=
    view_in "kg" (fun x => x / 1000) (fun x => x * 1000).

Definition generic_example : GenericView := mkGenericView (leaf 8 "undefined").

  (** A point series stored on the grid [0, 10, 20] and viewed on the
      grid [0, 5, 10], with linear interpolation and constant extrapolation. *)
Definition coarse : _Parameter := mk_Parameter 9 "A" [0; 10; 20]%Z [].

Definition no_average : ExtrapolationType -> list Z -> list Z -> list Q -> list Q :=
    fun _ _ _ values => values.

Definition fine_grid : Time.converter :=
    Time.mkConverter [0; 10; 20]%Z [0; 5; 10]%Z POINT_TIMESERIES
      Interpolation_LINEAR Extrapolation_CONSTANT.

Definition timeseries_view (writable : bool) : TimeseriesView :=
    mkTimeseriesView writable coarse
      (mkUnitConverter "A" "A" (fun x => x) (fun x => x))
      (Time.for_view no_average fine_grid) None false None None float64.

Definition coarse_written : store :=
    upd empty_store 9 (mkCell true (PArray [1; 3; 5]) 1).



End Scenario.

(** ** Notions used by the statements *)


(** The class, the parameter and the converters of a view never change. *)
Definition same_view (v v' : TimeseriesView) : Prop :=
  tv_writable v' = tv_writable v /\
  tv_parameter v' = tv_parameter v /\
  tv_unit_converter v' = tv_unit_converter v /\
  tv_timeseries_converter v' = tv_timeseries_converter v.

(** The loop of [sum(v.value for v in self._child_data_views)], from the
    accumulator [acc] on. *)
Fixpoint sum_values (s : store) (l : list ScalarView) (acc : Q) : result Q :=
  match l with
  | [] => Ok acc
  | v :: rest =>
      x <- ScalarView_value s v ;;
      sum_values s rest (Qplus acc x)
  end.

(** The leaves of a list of parameters, and the views
    [get_data_views_for_children_or_parameter] builds for such a list. *)
Fixpoint leaves_of_all (l : list _Parameter) : list _Parameter :=
  match l with
  | [] => []
  | p :: rest => leaves p ++ leaves_of_all rest
  end.

Fixpoint views_of_all (reg : registry) (target : string) (l : list _Parameter)
  : result (list ScalarView) :=
  match l with
  | [] => Ok []
  | p :: rest =>
      vs <- get_data_views_for_children_or_parameter reg target p ;;
      ws <- views_of_all reg target rest ;;
      Ok (vs ++ ws)
  end.

(** A leaf that holds a scalar: it has been written to and its data is a
    float. *)
Definition holds_scalar (s : store) (leaf : _Parameter) : Prop :=
  has_been_written_to (s (pid leaf)) = true /\
  exists x, data (s (pid leaf)) = PFloat x.

(** The value of a leaf in the unit [unit]: its data, converted from its
    own unit. *)
Definition leaf_value (reg : registry) (unit : string) (s : store)
    (leaf : _Parameter) : Q :=
  match reg (info_unit leaf) unit, data (s (pid leaf)) with
  | Ok (f, _), PFloat x => f x
  | _, _ => 0
  end.

(** The unit-converted sum of the values of all leaf descendants, added
    from left to right. *)
Definition aggregate (reg : registry) (unit : string) (s : store)
    (parameter : _Parameter) : Q :=
  fold_left Qplus (map (leaf_value reg unit s) (leaves parameter)) 0.

(** ** Writes and reads of one view, interleaved *)













(** The accesses of [test_view_updates_with_new_write], replayed on the
    coarse point series: a read, a write through another view of the
    parameter, a read, the view's own write, a read. *)
Module Replay.




End Replay.


(** A point series stored on the grid [0, 10, 20] and viewed on the
    shorter grid [0, 5, 10] without extrapolation: reading resamples inside
    the stored span, writing back would need values behind the view's last
    point. *)
Module Narrow.

Definition wide : _Parameter := mk_Parameter 10 "A" [0; 10; 20]%Z [].

Definition short_grid : Time.converter :=
    Time.mkConverter [0; 10; 20]%Z [0; 5; 10]%Z POINT_TIMESERIES
      Interpolation_LINEAR Extrapolation_NONE.

Definition view : TimeseriesView :=
    mkTimeseriesView true wide
      (mkUnitConverter "A" "A" (fun x => x) (fun x => x))
      (Time.for_view Scenario.no_average short_grid) None false None None
      float64.

Definition wide_written : store :=
    upd empty_store 10 (mkCell true (PArray [1; 2; 3]) 1).

End Narrow.

(** The coarse series with its values taken once (the view holds a buffer
    and a wrapper), and then [values[-1] = 7]. *)
Module Coarse.

Definition opened : TimeseriesView :=
    snd (TimeseriesView_values Scenario.coarse_written
           (Scenario.timeseries_view true)).

Definition after_item : viewS unit :=
    Timeseries___setitem__ Scenario.coarse_written opened (-1) 7.

End Coarse.

(** ** Notions for the views of an aggregated parameter *)

(** A view of a leaf in the unit [unit], as [ScalarView(parameter, unit)]
    comes out for a parameter without children. *)
Definition leaf_view (unit : string) (v : ScalarView) : Prop :=
  children (sv_parameter v) = [] /\
  sv_child_data_views v = None /\
  uc_source (sv_unit_converter v) = info_unit (sv_parameter v) /\
  uc_target (sv_unit_converter v) = unit.

(** The data of a leaf that has been written to is a float. *)
Definition scalar_if_written (s : store) (leaf : _Parameter) : Prop :=
  has_been_written_to (s (pid leaf)) = true ->
  exists x, data (s (pid leaf)) = PFloat x.

(** ** The adapter [PH99] ([openscm/adapters/ph99.py]) *)

Module PH99.

  (** What [_get_openscm_name] returns: a tuple of strings, or a plain
      string where the source writes parentheses without a comma. *)
Inductive openscm_name : Type :=
| Tuple (parts : list string)
| Str (s : string).

  (** The dictionary [mappings] of [_get_openscm_name], in source order. *)
Definition mappings : list (string * openscm_name) :=
    [("concentrations"%string, Tuple ["Atmospheric Concentrations"; "CO2"]%string);
     ("cumulative_emissions"%string, Tuple ["Cumulative Emissions"; "CO2"]%string);
     ("emissions"%string, Tuple ["Emissions"; "CO2"]%string);
     ("temperatures"%string, Str "Surface Temperature")].

  (** [d[key]]; [None] stands for the [KeyError]. *)
Fixpoint getitem (d : list (string * openscm_name)) (key : string)
    : option openscm_name :=
    match d with
    | [] => None
    | (k, v) :: rest => if String.eqb key k then Some v else getitem rest key
    end.

  (** [_get_openscm_name]: [try: return mappings[name]]
      [except KeyError: return (name,)] *)
Definition _get_openscm_name (name : string) : openscm_name :=
    match getitem mappings name with
    | Some n => n
    | None => Tuple [name]
    end.

Fixpoint tuple_eqb (a b : list string) : bool :=
    match a, b with
    | [], [] => true
    | x :: a', y :: b' => String.eqb x y && tuple_eqb a' b'
    | _, _ => false
    end.

  (** Python's [==] on these values: a string never equals a tuple. *)
Definition name_eqb (a b : openscm_name) : bool :=
    match a, b with
    | Tuple x, Tuple y => tuple_eqb x y
    | Str x, Str y => String.eqb x y
    | _, _ => false
    end.

  (** In [_run]: [if name == ("Surface Temperature")], the test that makes
      the output relative to [t1]. *)
Definition is_surface_temperature (name : openscm_name) : bool :=
    name_eqb name (Str "Surface Temperature").

  (** In [_run]: [if name in [("Emissions", "CO2")]: ptype = AVERAGE_TIMESERIES]
      [else: ptype = POINT_TIMESERIES]. *)
Definition output_timeseries_type (name : openscm_name) : ParameterType :=
    if existsb (name_eqb name) [Tuple ["Emissions"; "CO2"]%string]
    then AVERAGE_TIMESERIES
    else POINT_TIMESERIES.

End PH99.

(** ** Notions for the views of an aggregated timeseries *)

(** The views [get_data_views_for_children_or_parameter] of
    [TimeseriesView.__init__] builds for a list of parameters. *)
Fixpoint timeseries_views_of_all (reg : registry)
    (new_TimeseriesConverter : converter_factory)
    (target_unit : string) (target : list Z) (timeseries_type : ParameterType)
    (interpolation_type : InterpolationType)
    (extrapolation_type : ExtrapolationType)
    (l : list _Parameter) : result (list TimeseriesView) :=
  match l with
  | [] => Ok []
  | p :: rest =>
      vs <- get_timeseries_views_for_children_or_parameter reg
              new_TimeseriesConverter target_unit target timeseries_type
              interpolation_type extrapolation_type p ;;
      ws <- timeseries_views_of_all reg new_TimeseriesConverter target_unit
              target timeseries_type interpolation_type extrapolation_type rest ;;
      Ok (vs ++ ws)
  end.

(** A child view as [TimeseriesView(parameter, unit, time_points, ...)]
    comes out for a leaf: read-only, without buffer, wrapper or version,
    converting from the leaf's unit and grid to [target_unit] and
    [target]. *)
Definition child_view_of (new_TimeseriesConverter : converter_factory)
    (target_unit : string) (target : list Z) (timeseries_type : ParameterType)
    (interpolation_type : InterpolationType)
    (extrapolation_type : ExtrapolationType) (v : TimeseriesView) : Prop :=
  tv_writable v = false /\
  children (tv_parameter v) = [] /\
  tv_data v = None /\ tv_timeseries v = false /\ tv_version v = None /\
  tv_child_data_views v = None /\
  uc_source (tv_unit_converter v) = info_unit (tv_parameter v) /\
  uc_target (tv_unit_converter v) = target_unit /\
  new_TimeseriesConverter (time_points (tv_parameter v)) target
    timeseries_type interpolation_type extrapolation_type
  = Ok (tv_timeseries_converter v).

(** [acc + a1 + a2 + ...] on arrays, added from left to right. *)
Fixpoint add_all (acc : list Q) (l : list (list Q)) : result (list Q) :=
  match l with
  | [] => Ok acc
  | a :: rest => x <- np_add acc a ;; add_all x rest
  end.

(** A point series [total] with the two children [left] and [right], all
    on the grid [0, 10, 20], viewed on the grid [0, 5, 10]. *)
Module Sum.

Definition left : _Parameter := mk_Parameter 21 "A" [0; 10; 20]%Z [].
Definition right : _Parameter := mk_Parameter 22 "A" [0; 10; 20]%Z [].
Definition total : _Parameter :=
    mk_Parameter 20 "A" [0; 10; 20]%Z [left; right].

Definition factory : converter_factory :=
    Time.new_TimeseriesConverter Scenario.no_average.

Definition the_view : TimeseriesView :=
    match new_TimeseriesView Scenario.units factory true total "A"
            [0; 5; 10]%Z POINT_TIMESERIES Interpolation_LINEAR
            Extrapolation_CONSTANT with
    | Ok view => view
    | Raise _ => Scenario.timeseries_view true
    end.

Definition both_written : store :=
    upd (upd empty_store 21 (mkCell true (PArray [1; 3; 5]) 1))
      22 (mkCell true (PArray [10; 30; 50]) 1).

End Sum.

(** The aggregated series of [Sum] after its first read, and a writable
    view of its child [left] on the same grid. *)
Module Stale.

Definition opened : TimeseriesView :=
    snd (read_values Sum.both_written Sum.the_view).

Definition left_view : TimeseriesView :=
    mkTimeseriesView true Sum.left
      (mkUnitConverter "A" "A" (fun x => x) (fun x => x))
      (Time.for_view Scenario.no_average Scenario.fine_grid)
      None false None None float64.

Definition after_write : viewS unit :=
    WritableTimeseriesView_set_values Sum.both_written left_view float64 [0; 0; 0].

End Stale.

(** The three assignments of [test_scalar_parameter_view_aggregation],
    made through writable views of the leaves on a store in which nothing
    has been written. *)
Module Aggregation.

Definition writable (p : _Parameter) : ScalarView :=
    mkScalarView p
      (mkUnitConverter "dimensionless" "dimensionless" (fun x => x) (fun x => x))
      None.

Definition after_assignments : result store :=
    s1 <- WritableScalarView_set_value empty_store (writable Scenario.a_1) (6 # 10) ;;
    s2 <- WritableScalarView_set_value s1 (writable Scenario.a_2) (3 # 10) ;;
    WritableScalarView_set_value s2 (writable Scenario.b) (1 # 10).

End Aggregation.


(** Situations in which a read differs from the converted contents. *)
Module Differs.




End Differs.

(** A writable view of the coarse series after [view.values = [0, 1, 2]]:
    [np.asarray] makes the buffer an array of integers. *)
Module Integers.

Definition assigned : result unit * TimeseriesView * store :=
    WritableTimeseriesView_set_values Scenario.coarse_written
      (Scenario.timeseries_view true) int64 [0; 1; 2].

Definition view : TimeseriesView := snd (fst assigned).



End Integers.

(** * Properties *)

(** ** The store *)

Lemma upd_same (s : store) (i : nat) (c : cell) : upd s i c i = c.
Proof. unfold upd. now rewrite Nat.eqb_refl. Qed.

Lemma upd_other (s : store) (i j : nat) (c : cell) : j <> i -> upd s i c j = s j.
Proof.
  intros Hne. unfold upd.
  destruct (Nat.eqb_spec j i) as [Heq | _]; [contradiction | reflexivity].
Qed.

(** ** The scalar and the generic setter *)

(** What the scalar setter does, for every view: it never raises, stores the
    converted value and leaves the version and the written flag alone. *)
Lemma WritableScalarView_set_value_spec (s : store) (self : ScalarView) (v : Q) :
  exists s',
    WritableScalarView_set_value s self v = Ok s' /\
    data (s' (pid (sv_parameter self)))
      = PFloat (uc_convert_to (sv_unit_converter self) v) /\
    version (s' (pid (sv_parameter self))) = version (s (pid (sv_parameter self))) /\
    has_been_written_to (s' (pid (sv_parameter self)))
      = has_been_written_to (s (pid (sv_parameter self))).
Proof.
  eexists. split; [reflexivity |]. rewrite upd_same. auto.
Qed.

Lemma WritableGenericView_set_value_spec (s : store) (self : GenericView) (v : pydata) :
  exists s',
    WritableGenericView_set_value s self v = Ok s' /\
    data (s' (pid (gv_parameter self))) = v /\
    version (s' (pid (gv_parameter self))) = version (s (pid (gv_parameter self))) /\
    has_been_written_to (s' (pid (gv_parameter self)))
      = has_been_written_to (s (pid (gv_parameter self))).
Proof.
  eexists. split; [reflexivity |]. rewrite upd_same. auto.
Qed.

(** C1 (the code at the failing input).  The parameter [(Top, a)] has the
    children [(Top, a, 1)] and [(Top, a, 2)].  Assigning 0 through a
    writable scalar view of it does not raise: the value is stored on the
    aggregate node, although [attempt_write] on that node would refuse with
    [ParameterReadonlyError]. *)
Theorem scalar_setter_stores_on_aggregate :
  children (sv_parameter Scenario.view_of_a) = [Scenario.a_1; Scenario.a_2] /\
  attempt_write Scenario.a Scenario.after_writes = Raise ParameterReadonlyError /\
  exists s',
    WritableScalarView_set_value Scenario.after_writes Scenario.view_of_a 0 = Ok s' /\
    data (Scenario.after_writes 1%nat) = PNone /\
    data (s' 1%nat) = PFloat 0.
Proof.
  split; [reflexivity |]. split; [reflexivity |].
  eexists. split; [reflexivity |]. split; reflexivity.
Qed.

(** C2 (the code at the failing input).  [test_version]: a parameter at
    version 0, [v1.value = 3] and then [v2.value = 12] through two writable
    scalar views; both writes succeed and the version is still 0.  The same
    holds for a write through a writable generic view. *)
Theorem scalar_and_generic_setters_keep_version :
  (exists s1 s2,
     WritableScalarView_set_value empty_store Scenario.v1 3 = Ok s1 /\
     WritableScalarView_set_value s1 Scenario.v2 12 = Ok s2 /\
     version (empty_store 7%nat) = 0%Z /\
     version (s1 7%nat) = 0%Z /\
     version (s2 7%nat) = 0%Z) /\
  (exists s1,
     WritableGenericView_set_value empty_store Scenario.generic_example
       (PObject "enabled") = Ok s1 /\
     version (s1 8%nat) = version (empty_store 8%nat)).
Proof.
  split.
  - do 2 eexists. repeat split; reflexivity.
  - eexists. split; reflexivity.
Qed.

(** C5 (the code at the failing input).  [test_scalar_parameter_view]: on a
    parameter never written to, a read raises [ParameterEmptyError];
    [cs_writable.value = 68] succeeds and the next read, through the same
    view or another one, still raises [ParameterEmptyError]; likewise for a
    generic view, and for a read-only timeseries view after a successful
    assignment through a writable one. *)
Theorem read_after_setter_still_empty :
  (ScalarView_value empty_store Scenario.v1 = Raise ParameterEmptyError /\
   exists s1,
     WritableScalarView_set_value empty_store Scenario.v1 68 = Ok s1 /\
     ScalarView_value s1 Scenario.v1 = Raise ParameterEmptyError /\
     ScalarView_value s1 Scenario.v2 = Raise ParameterEmptyError /\
     empty s1 Scenario.example = true) /\
  (GenericView_value empty_store Scenario.generic_example
   = Raise ParameterEmptyError /\
   exists s1,
     WritableGenericView_set_value empty_store Scenario.generic_example
       (PObject "enabled") = Ok s1 /\
     GenericView_value s1 Scenario.generic_example = Raise ParameterEmptyError) /\
  (fst (read_values empty_store (Scenario.timeseries_view false))
   = Raise ParameterEmptyError /\
   exists view' s1,
     WritableTimeseriesView_set_values empty_store
       (Scenario.timeseries_view true) float64 [0; 1; 2] = (Ok tt, view', s1) /\
     fst (read_values s1 (Scenario.timeseries_view false))
     = Raise ParameterEmptyError).
Proof.
  split; [| split].
  - split; [reflexivity |]. eexists. repeat split; reflexivity.
  - split; [reflexivity |]. eexists. split; reflexivity.
  - split; [reflexivity |]. do 2 eexists. split; reflexivity.
Qed.

(** ** [_read] and [_write] of a timeseries view *)

Lemma TimeseriesView__read_unfold (s : store) (self : TimeseriesView) :
  TimeseriesView__read s self
  = read_with (TimeseriesView__get_values s) s self.
Proof. destruct self; reflexivity. Qed.

(** On a parameter without children [_get_values] leaves the view alone and
    depends on the store only. *)
Lemma get_values_childless (s : store) (self : TimeseriesView) :
  children (tv_parameter self) = [] ->
  TimeseriesView__get_values s self
  = (if empty s (tv_parameter self) then Raise ParameterEmptyError
     else
       match data (s (pid (tv_parameter self))) with
       | PArray xs =>
           tc_convert_from (tv_timeseries_converter self)
             (map (uc_convert_from (tv_unit_converter self)) xs)
       | _ => Raise TypeError
       end, self).
Proof.
  intros Hc. unfold TimeseriesView__get_values, get_values_with. rewrite Hc.
  destruct (empty s (tv_parameter self)); [reflexivity |].
  destruct (data (s (pid (tv_parameter self)))); reflexivity.
Qed.

Lemma same_view_refl (v : TimeseriesView) : same_view v v.
Proof. repeat split. Qed.


Lemma get_values_same_view (s : store) (self : TimeseriesView) :
  same_view self (snd (TimeseriesView__get_values s self)).
Proof.
  unfold TimeseriesView__get_values, get_values_with.
  destruct (children (tv_parameter self)).
  - destruct (empty s (tv_parameter self)); [apply same_view_refl |].
    destruct (data (s (pid (tv_parameter self)))); apply same_view_refl.
  - destruct (tv_child_data_views self); [| apply same_view_refl].
    destruct (sum_child_values _ _ _). repeat split.
Qed.




(** [np.copyto] between arrays of one length replaces the contents. *)
Lemma np_copyto_same_length (dst_dtype src_dtype : dtype) (dst src : list Q) :
  can_cast src_dtype dst_dtype = true ->
  length src = length dst -> np_copyto dst_dtype dst src_dtype src = Ok src.
Proof. intros Hc H. unfold np_copyto. now rewrite Hc, H, Nat.eqb_refl. Qed.

(** ** The [values] setter *)

(** C9.  When the [values] setter of a [WritableTimeseriesView] is called
    with a sequence whose length differs from [target_length], it raises
    [TimeseriesPointsValuesMismatchError] before any mutation: the view
    (and with it the cached array) and the store (and with it the data and
    the version of the parameter) are the ones from before the call. *)
Theorem set_values_mismatch_changes_nothing
    (s : store) (self : TimeseriesView) (dt : dtype) (v : list Q) :
  tv_writable self = true ->
  length v <> tc_target_length (tv_timeseries_converter self) ->
  WritableTimeseriesView_set_values s self dt v
  = (Raise TimeseriesPointsValuesMismatchError, self, s).
Proof.
  intros Hw Hlen. unfold WritableTimeseriesView_set_values. rewrite Hw. simpl.
  destruct (Nat.eqb_spec (length v) (tc_target_length (tv_timeseries_converter self)))
    as [Heq | _]; [contradiction | reflexivity].
Qed.

Lemma set_values_mismatch_changes_nothing_witness :
  WritableTimeseriesView_set_values Scenario.coarse_written
    (Scenario.timeseries_view true) float64 [0; 100]
  = (Raise TimeseriesPointsValuesMismatchError,
     Scenario.timeseries_view true, Scenario.coarse_written).
Proof.
  apply set_values_mismatch_changes_nothing; [reflexivity | vm_compute; discriminate].
Defined.




(** ** Item assignment through a read-only view *)



(** ** Aggregation over the leaves *)

Lemma _Parameter_tree_ind (P : _Parameter -> Prop) :
  (forall i u tps cs, Forall P cs -> P (mk_Parameter i u tps cs)) ->
  forall p, P p.
Proof.
  intros Hnode. fix IH 1. intros [i u tps cs]. apply Hnode.
  induction cs as [| c cs IHcs]; constructor; [apply IH | exact IHcs].
Qed.

Lemma leaves_unfold (p : _Parameter) :
  leaves p = match children p with
             | [] => [p]
             | c :: cs => leaves_of_all (c :: cs)
             end.
Proof.
  destruct p as [i u tps cs]. destruct cs as [| c cs]; [reflexivity |].
  simpl. f_equal.
  all: induction cs as [| c' cs IH]; simpl; congruence.
Qed.

Lemma get_data_views_unfold (reg : registry) (target : string) (p : _Parameter) :
  get_data_views_for_children_or_parameter reg target p
  = match children p with
    | [] =>
        uc <- new_UnitConverter reg (info_unit p) target ;;
        Ok [mkScalarView p uc None]
    | c :: cs => views_of_all reg target (c :: cs)
    end.
Proof.
  destruct p as [i u tps cs]. destruct cs as [| c cs]; [reflexivity |].
  simpl. destruct (get_data_views_for_children_or_parameter reg target c);
    [| reflexivity]. simpl.
  assert (H : forall l,
             (fix over (l : list _Parameter) : result (list ScalarView) :=
                match l with
                | [] => Ok []
                | p :: rest =>
                    vs <- get_data_views_for_children_or_parameter reg target p ;;
                    ws <- over rest ;;
                    Ok (vs ++ ws)
                end) l = views_of_all reg target l).
  { induction l as [| c' l IH]; [reflexivity |]. simpl. now rewrite IH. }
  now rewrite H.
Qed.

Lemma ScalarView_value_unfold (s : store) (self : ScalarView) :
  ScalarView_value s self
  = match children (sv_parameter self) with
    | _ :: _ =>
        match sv_child_data_views self with
        | None => Raise AttributeError
        | Some vs => sum_values s vs 0
        end
    | [] =>
        if empty s (sv_parameter self) then Raise ParameterEmptyError
        else
          match data (s (pid (sv_parameter self))) with
          | PFloat x => Ok (uc_convert_from (sv_unit_converter self) x)
          | _ => Raise TypeError
          end
    end.
Proof.
  destruct self as [p uc cvs]. simpl.
  destruct (children p); [reflexivity |].
  destruct cvs as [vs |]; [| reflexivity].
  generalize 0. induction vs as [| v vs IH]; intros acc; [reflexivity |].
  simpl. destruct (ScalarView_value s v); simpl; [apply IH | reflexivity].
Qed.

Lemma sum_values_app (s : store) (l1 l2 : list ScalarView) (acc : Q) :
  sum_values s (l1 ++ l2) acc
  = (x <- sum_values s l1 acc ;; sum_values s l2 x).
Proof.
  revert acc. induction l1 as [| v l1 IH]; intros acc; [reflexivity |].
  simpl. destruct (ScalarView_value s v); simpl; [apply IH | reflexivity].
Qed.

(** The views built for the leaves of [p] sum up to the sum of the leaf
    values, whatever the accumulator starts from. *)
Lemma sum_values_over_leaves (reg : registry) (target : string) (s : store) :
  forall p vs acc,
    get_data_views_for_children_or_parameter reg target p = Ok vs ->
    (forall leaf, In leaf (leaves p) -> holds_scalar s leaf) ->
    sum_values s vs acc
    = Ok (fold_left Qplus (map (leaf_value reg target s) (leaves p)) acc).
Proof.
  induction p as [i u tps cs IH] using _Parameter_tree_ind.
  intros vs acc Hviews Hleaves.
  rewrite get_data_views_unfold in Hviews. rewrite leaves_unfold in Hleaves |- *.
  cbn [children info_unit] in Hviews, Hleaves |- *. destruct cs as [| c cs].
  - (* a leaf: one view, one value *)
    unfold new_UnitConverter in Hviews.
    destruct (Hleaves _ (or_introl eq_refl)) as [Hw [x Hx]].
    unfold leaf_value. cbn [map fold_left info_unit pid].
    cbn [pid] in Hw, Hx.
    destruct (reg u target) as [[f g] |]; [| discriminate].
    cbn [bind] in Hviews. injection Hviews as <-.
    cbn [sum_values]. rewrite ScalarView_value_unfold. unfold empty.
    cbn [sv_parameter children pid sv_unit_converter uc_convert_from].
    rewrite Hw, Hx. reflexivity.
  - (* an aggregate: the children one after the other *)
    revert vs acc Hviews Hleaves.
    generalize (c :: cs) IH. clear.
    induction l as [| q l IHl]; intros IH vs acc Hviews Hleaves;
      cbn [views_of_all leaves_of_all] in *.
    + injection Hviews as <-. reflexivity.
    + destruct (get_data_views_for_children_or_parameter reg target q)
        as [vq |] eqn:Hq; [| discriminate].
      cbn [bind] in Hviews.
      destruct (views_of_all reg target l) as [vl |] eqn:Hl; [| discriminate].
      cbn [bind] in Hviews. injection Hviews as <-.
      inversion IH as [| ? ? IHq IHrest]; subst.
      rewrite sum_values_app, map_app, fold_left_app.
      rewrite (IHq vq acc Hq)
        by (intros leaf Hin; apply Hleaves; apply in_or_app; now left).
      cbn [bind]. apply IHl; [exact IHrest | reflexivity |].
      intros leaf Hin. apply Hleaves. apply in_or_app. now right.
Qed.

(** Reading a view of a parameter with children gives the sum over its
    leaves. *)
Lemma aggregate_read (reg : registry) (s : store) (p : _Parameter)
    (unit : string) (view : ScalarView) :
  children p <> [] ->
  new_ScalarView reg p unit = Ok view ->
  (forall leaf, In leaf (leaves p) -> holds_scalar s leaf) ->
  ScalarView_value s view = Ok (aggregate reg unit s p).
Proof.
  intros Hc Hnew Hleaves. unfold new_ScalarView, new_UnitConverter in Hnew.
  destruct (reg (info_unit p) unit) as [[f g] |]; [| discriminate].
  simpl in Hnew. destruct (children p) as [| c cs] eqn:Hcs; [contradiction |].
  destruct (get_data_views_for_children_or_parameter reg unit p) as [vs |] eqn:Hvs;
    [| discriminate].
  simpl in Hnew. injection Hnew as <-.
  rewrite ScalarView_value_unfold. simpl. rewrite Hcs.
  now apply sum_values_over_leaves.
Qed.

Lemma Qplus_0_l_eq (x : Q) : Qplus 0 x = x.
Proof.
  destruct x as [n d]. unfold Qplus. simpl. now rewrite Z.mul_1_r.
Qed.

Lemma new_ScalarView_parameter (reg : registry) (p : _Parameter) (unit : string)
    (view : ScalarView) :
  new_ScalarView reg p unit = Ok view -> sv_parameter view = p.
Proof.
  unfold new_ScalarView. destruct (new_UnitConverter reg (info_unit p) unit);
    [| discriminate]. cbn [bind].
  destruct (children p).
  - intros H. injection H as <-. reflexivity.
  - destruct (get_data_views_for_children_or_parameter reg (uc_target a) p);
      [| discriminate]. cbn [bind]. intros H. injection H as <-. reflexivity.
Qed.

(** The aggregation itself, over leaves that are marked as written.  For
    every parameter with children, reading a [ScalarView] over it
    returns the unit-converted sum of the values of all its leaf
    descendants (leaves only, depth first), once these hold values.  In
    particular, with [x1], [x2] and [y] written in a common unit to
    [(Top, a, 1)], [(Top, a, 2)] and [(Top, b)], reading [(Top, a)] returns
    [x1 + x2] and reading [(Top)] returns [x1 + x2 + y]. *)
Theorem aggregate_read_is_sum_over_leaves :
  (forall (reg : registry) (s : store) (p : _Parameter) (unit : string)
          (view : ScalarView),
      children p <> [] ->
      new_ScalarView reg p unit = Ok view ->
      (forall leaf, In leaf (leaves p) -> holds_scalar s leaf) ->
      ScalarView_value s view = Ok (aggregate reg unit s p)) /\
  (forall (reg : registry) (s : store) (u : string) (f g : Q -> Q)
          (top a a1 a2 b : nat) (x1 x2 y : Q),
      reg u u = Ok (f, g) ->
      (forall x, f x = x) ->
      has_been_written_to (s a1) = true -> data (s a1) = PFloat x1 ->
      has_been_written_to (s a2) = true -> data (s a2) = PFloat x2 ->
      has_been_written_to (s b) = true -> data (s b) = PFloat y ->
      let A := mk_Parameter a u []
                 [mk_Parameter a1 u [] []; mk_Parameter a2 u [] []] in
      let Top := mk_Parameter top u [] [A; mk_Parameter b u [] []] in
      (view <- new_ScalarView reg A u ;; ScalarView_value s view)
      = Ok (x1 + x2) /\
      (view <- new_ScalarView reg Top u ;; ScalarView_value s view)
      = Ok (x1 + x2 + y)).
Proof.
  split.
  - intros reg s p unit view. apply aggregate_read.
  - intros reg s u f g top a a1 a2 b x1 x2 y Hreg Hf Hw1 Hd1 Hw2 Hd2 Hwb Hdb A Top.
    subst A Top. unfold new_ScalarView.
    repeat (cbn; unfold new_UnitConverter; rewrite ?Hreg).
    unfold empty. cbn.
    rewrite Hw1, Hd1, Hw2, Hd2, Hwb, Hdb. cbn.
    rewrite !Hf, Qplus_0_l_eq. split; reflexivity.
Qed.

Lemma aggregate_read_is_sum_over_leaves_witness :
  (view <- new_ScalarView Scenario.units Scenario.a "dimensionless" ;;
   ScalarView_value Scenario.after_writes view) = Ok ((6 # 10) + (3 # 10)) /\
  (view <- new_ScalarView Scenario.units Scenario.Top "dimensionless" ;;
   ScalarView_value Scenario.after_writes view)
  = Ok ((6 # 10) + (3 # 10) + (1 # 10)).
Proof.
  apply (proj2 aggregate_read_is_sum_over_leaves Scenario.units
           Scenario.after_writes "dimensionless"%string (fun x => x) (fun x => x)
           0%nat 1%nat 2%nat 3%nat 4%nat);
    reflexivity.
Defined.

(** The [empty] property of a view depends only on the
    [has_been_written_to] flag of its own parameter: it is the negation of
    that flag, whatever the state of any other parameter.  For a parameter
    with children whose flag is not set, [empty] stays [True] when every
    leaf descendant has been written, while the aggregated read succeeds. *)
Theorem empty_is_own_flag_only :
  (forall (s : store) (p : _Parameter),
      empty s p = negb (has_been_written_to (s (pid p)))) /\
  (forall (s s' : store) (p : _Parameter),
      has_been_written_to (s' (pid p)) = has_been_written_to (s (pid p)) ->
      empty s' p = empty s p) /\
  (forall (reg : registry) (s : store) (p : _Parameter) (unit : string)
          (view : ScalarView),
      children p <> [] ->
      new_ScalarView reg p unit = Ok view ->
      has_been_written_to (s (pid p)) = false ->
      (forall leaf, In leaf (leaves p) -> holds_scalar s leaf) ->
      empty s (sv_parameter view) = true /\
      exists x, ScalarView_value s view = Ok x).
Proof.
  split; [reflexivity |]. split.
  - intros s s' p H. unfold empty. now rewrite H.
  - intros reg s p unit view Hc Hnew Hflag Hleaves. split.
    + erewrite new_ScalarView_parameter by eassumption. unfold empty.
      now rewrite Hflag.
    + eexists. eapply aggregate_read; eassumption.
Qed.

Lemma empty_is_own_flag_only_witness :
  empty Scenario.after_writes (sv_parameter Scenario.view_of_a) = true /\
  exists x, ScalarView_value Scenario.after_writes Scenario.view_of_a = Ok x.
Proof.
  apply (proj2 (proj2 empty_is_own_flag_only) Scenario.units
           Scenario.after_writes Scenario.a "dimensionless"%string
           Scenario.view_of_a).
  - discriminate.
  - reflexivity.
  - reflexivity.
  - intros leaf [<- | [<- | []]]; split;
      solve [reflexivity | eexists; reflexivity].
Defined.

(** ** Insufficient data in the timeseries converter *)






(** A [_read] directly after a successful [_read] finds the version it has
    just stored and changes nothing. *)
Lemma TimeseriesView__read_again (s : store) (self : TimeseriesView) :
  fst (TimeseriesView__read s self) = Ok tt ->
  TimeseriesView__read s (snd (TimeseriesView__read s self))
  = (Ok tt, snd (TimeseriesView__read s self)).
Proof.
  assert (Hagain : forall v d,
    tv_data v = Some d ->
    tv_version v = Some (version (s (pid (tv_parameter v)))) ->
    TimeseriesView__read s v = (Ok tt, v)).
  { intros v d Hd Hk. rewrite TimeseriesView__read_unfold. unfold read_with.
    rewrite Hd, Hk, Z.eqb_refl. destruct v; cbn in *. now rewrite Hk. }
  rewrite (TimeseriesView__read_unfold s self). unfold read_with.
  pose proof (get_values_same_view s self) as (_ & Hp & _).
  destruct (TimeseriesView__get_values s self) as [r self1]. cbn [snd] in Hp.
  destruct (tv_data self) as [d |] eqn:Hd.
  - destruct (tv_version self) as [k |] eqn:Hk; [| discriminate].
    destruct (Z.eqb_spec k (version (s (pid (tv_parameter self))))) as [He | Hne].
    + intros _. cbn [snd]. apply (Hagain _ d); destruct self; cbn in *; congruence.
    + destruct r as [a | e]; [| discriminate].
      destruct (np_copyto (tv_dtype self) d float64 a) as [d' | e]; [| discriminate].
      intros _. cbn [snd]. apply (Hagain _ d'); destruct self1; cbn in *; congruence.
  - destruct r as [a | e]; [| discriminate].
    intros _. cbn [snd]. apply (Hagain _ a); destruct self1; cbn in *; congruence.
Qed.

(** ** The cache of a timeseries view *)









(** A successful [_write] hands the view the version it has just given to
    the parameter, one more than before. *)
Lemma write_success (s s' : store) (self view' : TimeseriesView) :
  TimeseriesView__write s self = (Ok tt, view', s') ->
  view' = set_tv_version self
            (Some (version (s (pid (tv_parameter self))) + 1)%Z) /\
  version (s' (pid (tv_parameter self)))
  = (version (s (pid (tv_parameter self))) + 1)%Z.
Proof.
  unfold TimeseriesView__write.
  destruct (tv_writable self); [| discriminate].
  destruct (tv_data self) as [d |]; [| discriminate].
  destruct (tc_convert_to _ _) as [a | e]; [| discriminate].
  intros H. injection H as <- <-. rewrite !upd_same. cbn. split; reflexivity.
Qed.

Lemma list_set_length (l : list Q) (i : nat) (x : Q) :
  length (list_set l i x) = length l.
Proof.
  revert i. induction l as [| h t IH]; intros [| j]; cbn; try reflexivity.
  now rewrite IH.
Qed.















(** ** The child views of an aggregated scalar view *)

(** The views [get_data_views_for_children_or_parameter] returns are views
    of the leaves, one per leaf, in the order of [leaves]. *)
Lemma data_views_are_leaf_views (reg : registry) (target : string) :
  forall p vs,
    get_data_views_for_children_or_parameter reg target p = Ok vs ->
    map sv_parameter vs = leaves p /\ Forall (leaf_view target) vs.
Proof.
  induction p as [i u tps cs IH] using _Parameter_tree_ind.
  intros vs Hviews.
  rewrite get_data_views_unfold in Hviews. rewrite leaves_unfold.
  cbn [children info_unit] in Hviews |- *. destruct cs as [| c cs].
  - unfold new_UnitConverter in Hviews.
    destruct (reg u target) as [[f g] |]; [| discriminate].
    cbn [bind] in Hviews. injection Hviews as <-.
    split; [reflexivity |]. repeat constructor.
  - revert vs Hviews. generalize (c :: cs) IH. clear.
    induction l as [| q l IHl]; intros IH vs Hviews;
      cbn [views_of_all leaves_of_all] in *.
    + injection Hviews as <-. split; [reflexivity | constructor].
    + destruct (get_data_views_for_children_or_parameter reg target q)
        as [vq |] eqn:Hq; [| discriminate].
      cbn [bind] in Hviews.
      destruct (views_of_all reg target l) as [vl |] eqn:Hl; [| discriminate].
      cbn [bind] in Hviews. injection Hviews as <-.
      inversion IH as [| ? ? IHq IHrest]; subst.
      destruct (IHq vq Hq) as [Hmq Hfq].
      destruct (IHl IHrest vl eq_refl) as [Hml Hfl].
      split; [now rewrite map_app, Hmq, Hml | now apply Forall_app].
Qed.

Lemma new_ScalarView_children (reg : registry) (p : _Parameter) (unit : string)
    (view : ScalarView) :
  children p <> [] ->
  new_ScalarView reg p unit = Ok view ->
  sv_parameter view = p /\
  uc_target (sv_unit_converter view) = unit /\
  exists vs,
    sv_child_data_views view = Some vs /\
    get_data_views_for_children_or_parameter reg unit p = Ok vs.
Proof.
  intros Hc Hnew. unfold new_ScalarView, new_UnitConverter in Hnew.
  destruct (reg (info_unit p) unit) as [[f g] |]; [| discriminate].
  cbn [bind uc_target] in Hnew.
  destruct (children p) as [| c cs] eqn:Hcs; [contradiction |].
  destruct (get_data_views_for_children_or_parameter reg unit p) as [vs |] eqn:Hvs;
    [| discriminate].
  cbn [bind] in Hnew. injection Hnew as <-. cbn.
  repeat split. exists vs. split; reflexivity.
Qed.

(** The view of a parameter with children holds one child view per leaf
    descendant, in depth-first order; each is a view of that leaf alone,
    converting from the leaf's unit to the unit of the outer view. *)
Theorem child_views_are_the_leaves (reg : registry) (p : _Parameter)
    (unit : string) (view : ScalarView) :
  children p <> [] ->
  new_ScalarView reg p unit = Ok view ->
  exists vs,
    sv_child_data_views view = Some vs /\
    map sv_parameter vs = leaves p /\
    Forall (leaf_view unit) vs.
Proof.
  intros Hc Hnew.
  destruct (new_ScalarView_children reg p unit Hc Hnew) as (_ & _ & vs & Hvs & Hget).
  exists vs. split; [exact Hvs |]. now apply (data_views_are_leaf_views reg unit p).
Qed.

Lemma child_views_are_the_leaves_witness :
  exists vs,
    sv_child_data_views Scenario.view_of_a = Some vs /\
    map sv_parameter vs = leaves Scenario.a /\
    Forall (leaf_view "dimensionless") vs.
Proof.
  apply (@child_views_are_the_leaves Scenario.units Scenario.a
           "dimensionless"%string Scenario.view_of_a).
  - discriminate.
  - reflexivity.
Defined.

(** The sum over leaf views reads the cells of their parameters only. *)
Lemma sum_values_same_cells (s s' : store) (vs : list ScalarView) :
  Forall (fun v => children (sv_parameter v) = [] /\
                   s' (pid (sv_parameter v)) = s (pid (sv_parameter v))) vs ->
  forall acc, sum_values s' vs acc = sum_values s vs acc.
Proof.
  induction 1 as [| v vs [Hc Hv] _ IH]; intros acc; [reflexivity |].
  cbn [sum_values]. rewrite !ScalarView_value_unfold, Hc. unfold empty.
  rewrite Hv. destruct (negb _); [reflexivity |].
  destruct (data _); cbn [bind]; try reflexivity. apply IH.
Qed.

(** The value of a view depends on the cells of the leaf descendants of its
    parameter and on nothing else in the store.  For a parameter with
    children whose identity differs from those of its leaves, whatever the
    scalar setter stores on the parameter itself is never read. *)
Theorem scalar_read_depends_on_leaves_only (reg : registry) (s s' : store)
    (p : _Parameter) (unit : string) (view : ScalarView) :
  new_ScalarView reg p unit = Ok view ->
  ((forall leaf, In leaf (leaves p) -> s' (pid leaf) = s (pid leaf)) ->
   ScalarView_value s' view = ScalarView_value s view) /\
  (children p <> [] ->
   (forall leaf, In leaf (leaves p) -> pid leaf <> pid p) ->
   forall v s1,
     WritableScalarView_set_value s view v = Ok s1 ->
     ScalarView_value s1 view = ScalarView_value s view).
Proof.
  intros Hnew.
  assert (Hsame : forall s2,
            (forall leaf, In leaf (leaves p) -> s2 (pid leaf) = s (pid leaf)) ->
            ScalarView_value s2 view = ScalarView_value s view).
  { intros s2 Hleaves. destruct (children p) as [| c cs] eqn:Hcs.
    - unfold new_ScalarView in Hnew.
      destruct (new_UnitConverter reg (info_unit p) unit) as [uc |]; [| discriminate].
      cbn [bind] in Hnew. rewrite Hcs in Hnew. injection Hnew as <-.
      rewrite !ScalarView_value_unfold. cbn [sv_parameter]. rewrite Hcs.
      unfold empty. rewrite (Hleaves p); [reflexivity |].
      rewrite leaves_unfold, Hcs. now left.
    - assert (Hc : children p <> []) by (rewrite Hcs; discriminate).
      destruct (new_ScalarView_children reg p unit Hc Hnew)
        as (Hp & _ & vs & Hvs & Hget).
      destruct (data_views_are_leaf_views reg unit p Hget) as [Hmap Hleaf].
      rewrite !ScalarView_value_unfold, Hp, Hcs, Hvs.
      apply sum_values_same_cells.
      rewrite Forall_forall in Hleaf |- *. intros v Hin.
      split; [apply (Hleaf v Hin) |]. apply Hleaves.
      rewrite <- Hmap. now apply in_map. }
  split; [apply Hsame |].
  intros Hc Hids v s1 Hset. unfold WritableScalarView_set_value in Hset.
  injection Hset as <-. apply Hsame. intros leaf Hin.
  apply upd_other.
  destruct (new_ScalarView_children reg p unit Hc Hnew) as (-> & _).
  now apply Hids.
Qed.

Lemma scalar_read_depends_on_leaves_only_witness :
  ScalarView_value
    (upd Scenario.after_writes 1
       (set_data (Scenario.after_writes 1%nat) (PFloat 0)))
    Scenario.view_of_a
  = ScalarView_value Scenario.after_writes Scenario.view_of_a.
Proof.
  apply (proj2 (@scalar_read_depends_on_leaves_only Scenario.units
                  Scenario.after_writes Scenario.after_writes Scenario.a
                  "dimensionless"%string Scenario.view_of_a eq_refl)
           ltac:(discriminate)
           ltac:(intros leaf [<- | [<- | []]]; discriminate)
           0 _ eq_refl).
Defined.

(** Over leaf views whose data is a float once written, the sum either
    returns, and then every leaf has been written to, or it raises
    [ParameterEmptyError], and then some leaf has not. *)
Lemma sum_values_outcome (s : store) (vs : list ScalarView) :
  Forall (fun v => children (sv_parameter v) = [] /\
                   scalar_if_written s (sv_parameter v)) vs ->
  forall acc,
    (exists x, sum_values s vs acc = Ok x /\
               Forall (fun v => empty s (sv_parameter v) = false) vs) \/
    (sum_values s vs acc = Raise ParameterEmptyError /\
     Exists (fun v => empty s (sv_parameter v) = true) vs).
Proof.
  induction 1 as [| v vs [Hc Hty] _ IH]; intros acc.
  - left. exists acc. split; [reflexivity | constructor].
  - cbn [sum_values]. rewrite ScalarView_value_unfold, Hc.
    destruct (empty s (sv_parameter v)) eqn:He.
    + right. split; [reflexivity | now constructor].
    + unfold empty in He. apply negb_false_iff in He.
      destruct (Hty He) as [x Hx]. rewrite Hx. cbn [bind].
      destruct (IH (Qplus acc (uc_convert_from (sv_unit_converter v) x)))
        as [(y & Hy & Hall) | (Hr & Hex)].
      * left. exists y. split; [exact Hy |]. constructor; [| exact Hall].
        unfold empty. now rewrite He.
      * right. split; [exact Hr | now apply Exists_cons_tl].
Qed.

(** Reading a view of a parameter with children raises
    [ParameterEmptyError] exactly when some leaf descendant has not been
    written to, provided the leaves that have been written to hold
    floats; otherwise it returns a value. *)
Theorem aggregate_read_raises_iff_a_leaf_is_empty (reg : registry) (s : store)
    (p : _Parameter) (unit : string) (view : ScalarView) :
  children p <> [] ->
  new_ScalarView reg p unit = Ok view ->
  (forall leaf, In leaf (leaves p) -> scalar_if_written s leaf) ->
  (ScalarView_value s view = Raise ParameterEmptyError <->
   exists leaf, In leaf (leaves p) /\ empty s leaf = true) /\
  ((forall leaf, In leaf (leaves p) -> empty s leaf = false) ->
   exists x, ScalarView_value s view = Ok x).
Proof.
  intros Hc Hnew Hty.
  destruct (new_ScalarView_children reg p unit Hc Hnew) as (Hp & _ & vs & Hvs & Hget).
  destruct (data_views_are_leaf_views reg unit p Hget) as [Hmap Hleaf].
  rewrite ScalarView_value_unfold, Hp, Hvs.
  destruct (children p) as [| c cs] eqn:Hcs; [contradiction |].
  assert (Hall : Forall (fun v => children (sv_parameter v) = [] /\
                                  scalar_if_written s (sv_parameter v)) vs).
  { rewrite Forall_forall in Hleaf |- *. intros v Hin.
    split; [apply (Hleaf v Hin) |]. apply Hty. rewrite <- Hmap. now apply in_map. }
  destruct (sum_values_outcome Hall 0) as [(x & Hx & Hw) | (Hr & Hex)].
  - rewrite Hx. split; [split; [discriminate |] | intros _; now exists x].
    intros (leaf & Hin & He). exfalso.
    rewrite <- Hmap in Hin. apply in_map_iff in Hin as (v & <- & Hv).
    rewrite Forall_forall in Hw. rewrite (Hw v Hv) in He. discriminate.
  - rewrite Hr. split.
    + split; [intros _ | reflexivity].
      apply Exists_exists in Hex as (v & Hv & He).
      exists (sv_parameter v). split; [| exact He].
      rewrite <- Hmap. now apply in_map.
    + intros Hnone. exfalso.
      apply Exists_exists in Hex as (v & Hv & He).
      rewrite (Hnone (sv_parameter v)) in He; [discriminate |].
      rewrite <- Hmap. now apply in_map.
Qed.

Lemma aggregate_read_raises_iff_a_leaf_is_empty_witness :
  ScalarView_value empty_store Scenario.view_of_a = Raise ParameterEmptyError.
Proof.
  apply (proj1 (@aggregate_read_raises_iff_a_leaf_is_empty Scenario.units
                  empty_store Scenario.a "dimensionless"%string
                  Scenario.view_of_a ltac:(discriminate) eq_refl
                  ltac:(intros leaf _ H; discriminate H))).
  exists Scenario.a_1. split; [now left | reflexivity].
Defined.

(** ** Writing and reading a scalar in different units *)

(** On a parameter without children that is marked as written, a value
    assigned through one view is read through any view of the parameter as
    the reader's conversion of what the writer stored in the parameter's
    unit.  When the writer's converter undoes itself, the writer reads back
    the value it assigned, and a later assignment overrides an earlier
    one. *)
Theorem scalar_write_then_read (s s1 : store) (writer reader : ScalarView) (v : Q) :
  children (sv_parameter writer) = [] ->
  sv_parameter reader = sv_parameter writer ->
  has_been_written_to (s (pid (sv_parameter writer))) = true ->
  WritableScalarView_set_value s writer v = Ok s1 ->
  ScalarView_value s1 reader
  = Ok (uc_convert_from (sv_unit_converter reader)
          (uc_convert_to (sv_unit_converter writer) v)) /\
  ((forall x, uc_convert_from (sv_unit_converter writer)
                (uc_convert_to (sv_unit_converter writer) x) == x) ->
   exists y, ScalarView_value s1 writer = Ok y /\ y == v) /\
  (forall w s2,
     WritableScalarView_set_value s1 reader w = Ok s2 ->
     ScalarView_value s2 reader
     = Ok (uc_convert_from (sv_unit_converter reader)
             (uc_convert_to (sv_unit_converter reader) w))).
Proof.
  intros Hc Hp Hw Hset. unfold WritableScalarView_set_value in Hset.
  injection Hset as <-.
  assert (Hread : forall r x s0,
            sv_parameter r = sv_parameter writer ->
            has_been_written_to (s0 (pid (sv_parameter writer))) = true ->
            ScalarView_value
              (upd s0 (pid (sv_parameter r))
                 (set_data (s0 (pid (sv_parameter r))) (PFloat x))) r
            = Ok (uc_convert_from (sv_unit_converter r) x)).
  { intros r x s0 Hr Hw0. rewrite ScalarView_value_unfold, Hr, Hc.
    unfold empty. rewrite upd_same. cbn [set_data has_been_written_to data].
    now rewrite Hw0. }
  split; [| split].
  - rewrite <- Hp. rewrite Hread; [reflexivity | exact Hp | exact Hw].
  - intros Hinv. eexists. split; [apply Hread; [reflexivity | exact Hw] |].
    apply Hinv.
  - intros w s2 Hset2. unfold WritableScalarView_set_value in Hset2.
    injection Hset2 as <-. apply Hread; [exact Hp |].
    rewrite upd_same. exact Hw.
Qed.

Lemma scalar_write_then_read_witness :
  ScalarView_value
    (upd Scenario.after_writes 7
       (set_data (Scenario.written 1) (PFloat (12 * 1000))))
    Scenario.v1
  = Ok (12 * 1000).
Proof.
  apply (proj1 (@scalar_write_then_read
                  (upd Scenario.after_writes 7 (Scenario.written 1)) _
                  Scenario.v2 Scenario.v1 12 eq_refl eq_refl eq_refl eq_refl)).
Defined.

(** ** What an assignment to a timeseries view changes *)



(** [_write], whatever its outcome: the view keeps its buffer, no other
    parameter is touched and the written flag stays; on success the version
    is one more than before, on failure the store is the one from before. *)
Lemma write_outcome (s s' : store) (self view' : TimeseriesView) (r : result unit) :
  TimeseriesView__write s self = (r, view', s') ->
  same_view self view' /\
  tv_data view' = tv_data self /\
  (forall j, j <> pid (tv_parameter self) -> s' j = s j) /\
  has_been_written_to (s' (pid (tv_parameter self)))
  = has_been_written_to (s (pid (tv_parameter self))) /\
  match r with
  | Ok _ => version (s' (pid (tv_parameter self)))
            = (version (s (pid (tv_parameter self))) + 1)%Z
  | Raise _ => s' = s /\ view' = self
  end.
Proof.
  unfold TimeseriesView__write.
  destruct (tv_writable self).
  - destruct (tv_data self) as [d |] eqn:Hd.
    + destruct (tc_convert_to _ _) as [a | e].
      * intros H. injection H as <- <- <-. rewrite !upd_same.
        split; [destruct self; repeat split |].
        split; [destruct self; exact Hd |].
        split; [intros j Hj; now rewrite !upd_other by exact Hj |].
        split; reflexivity.
      * intros H. injection H as <- <- <-.
        repeat split; try apply same_view_refl; auto.
    + intros H. injection H as <- <- <-.
      repeat split; try apply same_view_refl; auto.
  - intros H. injection H as <- <- <-.
    repeat split; try apply same_view_refl; auto.
Qed.

(** The [values] setter and item assignment, whatever their outcome. *)
Lemma set_values_outcome (s s' : store) (self view' : TimeseriesView)
    (dt : dtype) (v : list Q) (r : result unit) :
  WritableTimeseriesView_set_values s self dt v = (r, view', s') ->
  same_view self view' /\
  (forall j, j <> pid (tv_parameter self) -> s' j = s j) /\
  has_been_written_to (s' (pid (tv_parameter self)))
  = has_been_written_to (s (pid (tv_parameter self))) /\
  match r with
  | Ok _ => version (s' (pid (tv_parameter self)))
            = (version (s (pid (tv_parameter self))) + 1)%Z
  | Raise _ => s' = s
  end.
Proof.
  unfold WritableTimeseriesView_set_values.
  destruct (negb (tv_writable self)).
  { intros H. injection H as <- <- <-. repeat split; auto. }
  destruct (negb _).
  { intros H. injection H as <- <- <-. repeat split; auto. }
  destruct (tv_data self) as [d |].
  - destruct (np_copyto (tv_dtype self) d dt v) as [d' | e].
    + intros H. apply write_outcome in H.
      destruct self; cbn in *. destruct H as (Hs & _ & Hf & Hw & Hr).
      repeat split; try apply Hs; auto. destruct r; [exact Hr | apply Hr].
    + intros H. injection H as <- <- <-. repeat split; auto.
  - intros H. apply write_outcome in H.
    destruct self; cbn in *. destruct H as (Hs & _ & Hf & Hw & Hr).
    repeat split; try apply Hs; auto. destruct r; [exact Hr | apply Hr].
Qed.

Lemma setitem_outcome (s s' : store) (self view' : TimeseriesView)
    (key : Z) (val : Q) (r : result unit) :
  Timeseries___setitem__ s self key val = (r, view', s') ->
  same_view self view' /\
  (forall j, j <> pid (tv_parameter self) -> s' j = s j) /\
  has_been_written_to (s' (pid (tv_parameter self)))
  = has_been_written_to (s (pid (tv_parameter self))) /\
  match r with
  | Ok _ => version (s' (pid (tv_parameter self)))
            = (version (s (pid (tv_parameter self))) + 1)%Z
  | Raise _ => s' = s
  end.
Proof.
  unfold Timeseries___setitem__, Timeseries___write__.
  destruct (tv_data self) as [a |].
  - destruct (py_index (length a) key) as [i |].
    + intros H. apply write_outcome in H.
      destruct self; cbn in *. destruct H as (Hs & _ & Hf & Hw & Hr).
      repeat split; try apply Hs; auto. destruct r; [exact Hr | apply Hr].
    + intros H. injection H as <- <- <-. repeat split; auto.
  - intros H. injection H as <- <- <-. repeat split; auto.
Qed.

(** An assignment that raises, for whatever reason (a read-only view, a
    length mismatch, a failing conversion on the way back, an index out of
    range), leaves every parameter as it was; one that succeeds changes the
    data and the version of the view's parameter and nothing else: no other
    parameter, and not the written flag. *)
Theorem assignment_changes_its_parameter_only (s : store) (self : TimeseriesView) :
  (forall dt v r view' s',
      WritableTimeseriesView_set_values s self dt v = (r, view', s') ->
      (forall e, r = Raise e -> s' = s) /\
      (forall j, j <> pid (tv_parameter self) -> s' j = s j) /\
      has_been_written_to (s' (pid (tv_parameter self)))
      = has_been_written_to (s (pid (tv_parameter self)))) /\
  (forall key val r view' s',
      Timeseries___setitem__ s self key val = (r, view', s') ->
      (forall e, r = Raise e -> s' = s) /\
      (forall j, j <> pid (tv_parameter self) -> s' j = s j) /\
      has_been_written_to (s' (pid (tv_parameter self)))
      = has_been_written_to (s (pid (tv_parameter self)))).
Proof.
  split.
  - intros dt v r view' s' H.
    destruct (set_values_outcome _ _ _ _ H) as (_ & Hf & Hw & Hr).
    split; [intros e ->; exact Hr | split; assumption].
  - intros key val r view' s' H.
    destruct (setitem_outcome _ _ _ _ H) as (_ & Hf & Hw & Hr).
    split; [intros e ->; exact Hr | split; assumption].
Qed.

Lemma assignment_changes_its_parameter_only_witness :
  snd (WritableTimeseriesView_set_values Narrow.wide_written Narrow.view
         float64 [5; 6; 7])
  = Narrow.wide_written.
Proof.
  destruct (WritableTimeseriesView_set_values Narrow.wide_written Narrow.view
              float64 [5; 6; 7]) as [[r view'] s'] eqn:H.
  apply (proj1 (proj1 (assignment_changes_its_parameter_only
                         Narrow.wide_written Narrow.view) _ _ _ _ _ H)
           InsufficientDataError).
  vm_compute in H. congruence.
Defined.

(** ** Versions along an interleaving *)




(** ** The shape of the buffer along an interleaving *)







(** ** The buffer of a view *)



(** ** Item assignment and item access *)

Lemma py_index_bound (n : nat) (key : Z) (i : nat) :
  py_index n key = Some i -> (i < n)%nat.
Proof.
  unfold py_index.
  destruct ((0 <=? key)%Z && (key <? Z.of_nat n)%Z) eqn:H1.
  - intros H. injection H as <-. apply andb_prop in H1 as [Ha Hb]. lia.
  - destruct ((- Z.of_nat n <=? key)%Z && (key <? 0)%Z) eqn:H2; [| discriminate].
    intros H. injection H as <-. apply andb_prop in H2 as [Ha Hb]. lia.
Qed.

Lemma nth_error_list_set (l : list Q) (i j : nat) (x : Q) :
  (i < length l)%nat ->
  nth_error (list_set l i x) j = if Nat.eqb j i then Some x else nth_error l j.
Proof.
  revert i j. induction l as [| h t IH]; intros i j Hi; cbn in Hi; [lia |].
  destruct i as [| i]; destruct j as [| j]; cbn; try reflexivity.
  apply IH. lia.
Qed.

(** After a successful [ts[key] = val] on the values of a writable view,
    [ts[key]] is [val] cast to the element type of the buffer ([val] itself
    in a buffer of floats, its integer part in a buffer of integers) and
    every other position still holds what the buffer held before the
    assignment; negative keys count from the end. *)
Theorem item_assignment_then_item_access (s s' : store)
    (self view' : TimeseriesView) (key : Z) (val : Q) :
  Timeseries___setitem__ s self key val = (Ok tt, view', s') ->
  exists a i,
    tv_data self = Some a /\ py_index (length a) key = Some i /\
    (tv_dtype self = float64 -> np_cast (tv_dtype self) val = val) /\
    forall key' j,
      py_index (length a) key' = Some j ->
      fst (Timeseries___getitem__ s' view' key')
      = if Nat.eqb j i then Ok (np_cast (tv_dtype self) val)
        else match nth_error a j with
             | Some x => Ok x
             | None => Raise IndexError
             end.
Proof.
  unfold Timeseries___setitem__, Timeseries___write__.
  destruct (tv_data self) as [a |] eqn:Ha; [| discriminate].
  destruct (py_index (length a) key) as [i |] eqn:Hi; [| discriminate].
  intros Hw. exists a, i. split; [reflexivity |]. split; [exact Hi |].
  split; [intros ->; reflexivity |].
  intros key' j Hj.
  pose proof (write_success _ _ Hw) as [-> Hv].
  unfold Timeseries___getitem__, Timeseries___read__.
  rewrite TimeseriesView__read_unfold. unfold read_with.
  destruct self; cbn in *. rewrite Hv, Z.eqb_refl. cbn.
  rewrite list_set_length, Hj.
  rewrite nth_error_list_set by exact (py_index_bound _ _ Hi).
  destruct (Nat.eqb j i); [reflexivity |].
  destruct (nth_error a j); reflexivity.
Qed.

Lemma item_assignment_then_item_access_witness :
  fst (Timeseries___getitem__ (snd Coarse.after_item)
         (snd (fst Coarse.after_item)) 2) = Ok 7.
Proof.
  destruct (@item_assignment_then_item_access Scenario.coarse_written
              (snd Coarse.after_item) Coarse.opened
              (snd (fst Coarse.after_item)) (-1) 7 eq_refl)
    as (a & i & Ha & Hi & _ & H).
  vm_compute in Ha. injection Ha as <-.
  vm_compute in Hi. injection Hi as <-.
  exact (H 2%Z 2%nat eq_refl).
Defined.

(** ** An assignment whose write-back fails *)

Lemma read_values_in_step (s : store) (view : TimeseriesView) (d : list Q) :
  tv_data view = Some d ->
  tv_version view = Some (version (s (pid (tv_parameter view)))) ->
  fst (read_values s view) = Ok d.
Proof.
  intros Hd Hk.
  assert (Hread : forall b,
            TimeseriesView__read s (set_tv_timeseries view b)
            = (Ok tt, set_tv_timeseries view b)).
  { intros b. rewrite TimeseriesView__read_unfold. unfold read_with.
    destruct view; cbn in *. rewrite Hd, Hk, Z.eqb_refl. reflexivity. }
  assert (Hflag : set_tv_timeseries view (tv_timeseries view) = view)
    by (destruct view; reflexivity).
  unfold read_values, TimeseriesView_values.
  destruct (tv_timeseries view) eqn:Hts.
  - unfold Timeseries___iter__, Timeseries___read__.
    rewrite <- Hflag, Hread. destruct view; cbn in *. now rewrite Hd.
  - rewrite <- Hflag, Hread.
    unfold Timeseries___iter__, Timeseries___read__.
    replace (set_tv_timeseries (set_tv_timeseries view false) true)
      with (set_tv_timeseries view true) by (destruct view; reflexivity).
    rewrite Hread. destruct view; cbn in *. now rewrite Hd.
Qed.

Lemma read_values_without_version (s : store) (view : TimeseriesView) (d : list Q) :
  tv_data view = Some d ->
  tv_version view = None ->
  fst (read_values s view) = Raise AttributeError.
Proof.
  intros Hd Hk.
  assert (Hread : TimeseriesView__read s view = (Raise AttributeError, view)).
  { rewrite TimeseriesView__read_unfold. unfold read_with. now rewrite Hd, Hk. }
  unfold read_values, TimeseriesView_values.
  destruct (tv_timeseries view).
  - unfold Timeseries___iter__, Timeseries___read__. now rewrite Hread.
  - now rewrite Hread.
Qed.

(** When the conversion on the way back raises, the [values] setter has
    already put the new values into the buffer of the view, and the
    parameter has received nothing; this is for values that the buffer the
    view already holds accepts (floats are refused by a buffer of integers
    before anything happens).  A view that was in step with its parameter
    then reads the new values back all the same; a view that held no
    version yet still holds none, and its next read raises
    [AttributeError]. *)
Theorem failed_write_back_stays_in_the_buffer (s : store)
    (self : TimeseriesView) (dt : dtype) (v : list Q) (e : exn) :
  tv_writable self = true ->
  length v = tc_target_length (tv_timeseries_converter self) ->
  (forall d, tv_data self = Some d ->
             length d = length v /\ can_cast dt (tv_dtype self) = true) ->
  tc_convert_to (tv_timeseries_converter self)
    (map (uc_convert_to (tv_unit_converter self)) v) = Raise e ->
  exists view',
    WritableTimeseriesView_set_values s self dt v = (Raise e, view', s) /\
    tv_data view' = Some v /\
    (tv_version self = Some (version (s (pid (tv_parameter self)))) ->
     fst (read_values s view') = Ok v) /\
    (tv_version self = None ->
     fst (read_values s view') = Raise AttributeError).
Proof.
  intros Hw Hlen Hbuf Hconv. unfold WritableTimeseriesView_set_values.
  rewrite Hw, Hlen, Nat.eqb_refl. cbn [negb].
  assert (Hwrite : forall view1,
            tv_writable view1 = true ->
            tv_data view1 = Some v ->
            tv_timeseries_converter view1 = tv_timeseries_converter self ->
            tv_unit_converter view1 = tv_unit_converter self ->
            TimeseriesView__write s view1 = (Raise e, view1, s)).
  { intros view1 H1 H2 H3 H4. unfold TimeseriesView__write.
    now rewrite H1, H2, H3, H4, Hconv. }
  destruct (tv_data self) as [d |] eqn:Hd.
  - destruct (Hbuf d eq_refl) as [Hld Hcast].
    rewrite np_copyto_same_length by (first [exact Hcast | now symmetry]).
    rewrite Hwrite by (destruct self; cbn in *; auto).
    eexists. split; [reflexivity |].
    split; [destruct self; reflexivity |]. split.
    + intros Hk. apply read_values_in_step; destruct self; cbn in *; auto.
    + intros Hk. apply (@read_values_without_version s _ v);
        destruct self; cbn in *; auto.
  - rewrite Hwrite by (destruct self; cbn in *; auto).
    eexists. split; [reflexivity |].
    split; [destruct self; reflexivity |]. split.
    + intros Hk. apply read_values_in_step; destruct self; cbn in *; auto.
    + intros Hk. apply (@read_values_without_version s _ v);
        destruct self; cbn in *; auto.
Qed.

Lemma failed_write_back_stays_in_the_buffer_witness :
  exists view',
    WritableTimeseriesView_set_values Narrow.wide_written
      (snd (read_values Narrow.wide_written Narrow.view)) float64 [5; 6; 7]
    = (Raise InsufficientDataError, view', Narrow.wide_written) /\
    fst (read_values Narrow.wide_written view') = Ok [5; 6; 7].
Proof.
  destruct (@failed_write_back_stays_in_the_buffer Narrow.wide_written
              (snd (read_values Narrow.wide_written Narrow.view)) float64
              [5; 6; 7] InsufficientDataError eq_refl eq_refl)
    as (view' & Hset & _ & Hread & _).
  - intros d Hd. vm_compute in Hd. injection Hd as <-. split; reflexivity.
  - reflexivity.
  - exists view'. split; [exact Hset |]. apply Hread. reflexivity.
Defined.

(** ** The names the adapter [PH99] gives to model attributes *)

Lemma tuple_eqb_eq (a b : list string) : PH99.tuple_eqb a b = true <-> a = b.
Proof.
  revert b. induction a as [| x a IH]; intros [| y b]; cbn; split;
    try discriminate; try reflexivity.
  - intros H. apply andb_prop in H as [Hx Hab].
    apply String.eqb_eq in Hx. apply IH in Hab. congruence.
  - intros H. injection H as -> ->. rewrite String.eqb_refl. cbn.
    now apply IH.
Qed.

Lemma name_eqb_eq (a b : PH99.openscm_name) : PH99.name_eqb a b = true <-> a = b.
Proof.
  destruct a as [x | x], b as [y | y]; cbn; split; try discriminate.
  - intros H. apply tuple_eqb_eq in H. congruence.
  - intros H. injection H as ->. now apply tuple_eqb_eq.
  - intros H. apply String.eqb_eq in H. congruence.
  - intros H. injection H as ->. apply String.eqb_refl.
Qed.

(** The five ways through [_get_openscm_name]. *)
Lemma _get_openscm_name_cases (name : string) :
  (name = "concentrations"%string /\
   PH99._get_openscm_name name
   = PH99.Tuple ["Atmospheric Concentrations"; "CO2"]%string) \/
  (name = "cumulative_emissions"%string /\
   PH99._get_openscm_name name
   = PH99.Tuple ["Cumulative Emissions"; "CO2"]%string) \/
  (name = "emissions"%string /\
   PH99._get_openscm_name name = PH99.Tuple ["Emissions"; "CO2"]%string) \/
  (name = "temperatures"%string /\
   PH99._get_openscm_name name = PH99.Str "Surface Temperature") \/
  (name <> "emissions"%string /\ name <> "temperatures"%string /\
   PH99._get_openscm_name name = PH99.Tuple [name]).
Proof.
  unfold PH99._get_openscm_name, PH99.mappings. cbn [PH99.getitem].
  destruct (String.eqb_spec name "concentrations") as [-> | H1];
    [left; split; reflexivity |].
  destruct (String.eqb_spec name "cumulative_emissions") as [-> | H2];
    [right; left; split; reflexivity |].
  destruct (String.eqb_spec name "emissions") as [-> | H3];
    [right; right; left; split; reflexivity |].
  destruct (String.eqb_spec name "temperatures") as [-> | H4];
    [right; right; right; left; split; reflexivity |].
  right; right; right; right. repeat split; assumption.
Qed.

(** [_get_openscm_name] never gives two model attributes the same OpenSCM
    name: the attributes of the table get names of two parts or a plain
    string, every other attribute the one-part tuple of its own name. *)
Theorem _get_openscm_name_injective (a b : string) :
  PH99._get_openscm_name a = PH99._get_openscm_name b -> a = b.
Proof.
  destruct (_get_openscm_name_cases a)
    as [[-> Ha] | [[-> Ha] | [[-> Ha] | [[-> Ha] | (_ & _ & Ha)]]]];
    destruct (_get_openscm_name_cases b)
      as [[-> Hb] | [[-> Hb] | [[-> Hb] | [[-> Hb] | (_ & _ & Hb)]]]];
    rewrite ?Ha, ?Hb; intros H; try reflexivity; try discriminate H;
    injection H; congruence.
Qed.

Lemma _get_openscm_name_injective_witness :
  "emissions"%string = "emissions"%string.
Proof.
  apply (@_get_openscm_name_injective "emissions" "emissions"). reflexivity.
Defined.

(** In [_run], an array-valued attribute is written as an average
    timeseries exactly when it is [emissions], and is taken relative to
    [t1] exactly when it is [temperatures], the one attribute whose name is
    a plain string instead of a tuple; every other one is a point
    timeseries. *)
Theorem only_emissions_are_averages (att : string) :
  (PH99.output_timeseries_type (PH99._get_openscm_name att) = AVERAGE_TIMESERIES
   <-> att = "emissions"%string) /\
  (PH99.is_surface_temperature (PH99._get_openscm_name att) = true
   <-> att = "temperatures"%string) /\
  ((exists parts, PH99._get_openscm_name att = PH99.Tuple parts)
   <-> att <> "temperatures"%string).
Proof.
  unfold PH99.output_timeseries_type, PH99.is_surface_temperature.
  destruct (_get_openscm_name_cases att)
    as [[-> Ha] | [[-> Ha] | [[-> Ha] | [[-> Ha] | (Hne & Hnt & Ha)]]]];
    rewrite Ha.
  1-3: cbn; repeat split; intros H; try discriminate H; try discriminate;
    eexists; reflexivity.
  - cbn. repeat split; intros H; try discriminate H; try reflexivity.
    + destruct H as [parts H]. discriminate H.
    + now contradiction H.
  - cbn. rewrite andb_false_r. cbn.
    repeat split; intros H; try discriminate H; try contradiction;
      try exact Hnt.
    eexists; reflexivity.
Qed.

Lemma TimeseriesView__read_again_witness :
  TimeseriesView__read Scenario.coarse_written
    (snd (TimeseriesView__read Scenario.coarse_written
            (Scenario.timeseries_view false)))
  = (Ok tt,
     snd (TimeseriesView__read Scenario.coarse_written
            (Scenario.timeseries_view false))).
Proof.
  apply TimeseriesView__read_again. reflexivity.
Defined.

(** ** The child views of an aggregated timeseries view *)

Section ChildViews.

Variable reg : registry.
Variable new_TimeseriesConverter : converter_factory.
Variable target_unit : string.
Variable target : list Z.
Variable timeseries_type : ParameterType.
Variable interpolation_type : InterpolationType.
Variable extrapolation_type : ExtrapolationType.

Lemma get_timeseries_views_unfold (p : _Parameter) :
  get_timeseries_views_for_children_or_parameter reg new_TimeseriesConverter
    target_unit target timeseries_type interpolation_type extrapolation_type p
  = match children p with
    | [] =>
        uc <- new_UnitConverter reg (info_unit p) target_unit ;;
        tc <- new_TimeseriesConverter (time_points p) target timeseries_type
                interpolation_type extrapolation_type ;;
        Ok [mkTimeseriesView false p uc tc None false None None float64]
    | c :: cs =>
        timeseries_views_of_all reg new_TimeseriesConverter target_unit target
          timeseries_type interpolation_type extrapolation_type (c :: cs)
    end.
Proof.
  destruct p as [i u tps cs]. destruct cs as [| c cs]; [reflexivity |].
  cbn [get_timeseries_views_for_children_or_parameter children
       timeseries_views_of_all].
  destruct (get_timeseries_views_for_children_or_parameter reg
              new_TimeseriesConverter target_unit target timeseries_type
              interpolation_type extrapolation_type c); [| reflexivity].
  cbn [bind]. f_equal.
  induction cs as [| c' cs IH]; [reflexivity |].
  cbn [timeseries_views_of_all]. now rewrite IH.
Qed.

Lemma timeseries_views_are_child_views :
  forall p vs,
    get_timeseries_views_for_children_or_parameter reg new_TimeseriesConverter
      target_unit target timeseries_type interpolation_type extrapolation_type p
    = Ok vs ->
    map tv_parameter vs = leaves p /\
    Forall (child_view_of new_TimeseriesConverter target_unit target
              timeseries_type interpolation_type extrapolation_type) vs.
Proof.
  induction p as [i u tps cs IH] using _Parameter_tree_ind.
  intros vs Hviews.
  rewrite get_timeseries_views_unfold in Hviews. rewrite leaves_unfold.
  cbn [children info_unit time_points] in Hviews |- *. destruct cs as [| c cs].
  - unfold new_UnitConverter in Hviews.
    destruct (reg u target_unit) as [[f g] |]; [| discriminate].
    cbn [bind] in Hviews.
    destruct (new_TimeseriesConverter tps target timeseries_type
                interpolation_type extrapolation_type) as [tc |] eqn:Htc;
      [| discriminate].
    cbn [bind] in Hviews. injection Hviews as <-.
    split; [reflexivity |]. constructor; [| constructor].
    unfold child_view_of. cbn. repeat split. exact Htc.
  - revert vs Hviews. generalize (c :: cs) IH. clear c cs IH.
    induction l as [| q l IHl]; intros IH vs Hviews;
      cbn [timeseries_views_of_all leaves_of_all] in *.
    + injection Hviews as <-. split; [reflexivity | constructor].
    + destruct (get_timeseries_views_for_children_or_parameter reg
                  new_TimeseriesConverter target_unit target timeseries_type
                  interpolation_type extrapolation_type q)
        as [vq |] eqn:Hq; [| discriminate].
      cbn [bind] in Hviews.
      destruct (timeseries_views_of_all reg new_TimeseriesConverter target_unit
                  target timeseries_type interpolation_type extrapolation_type l)
        as [vl |] eqn:Hl; [| discriminate].
      cbn [bind] in Hviews. injection Hviews as <-.
      inversion IH as [| ? ? IHq IHrest]; subst.
      destruct (IHq vq Hq) as [Hmq Hfq].
      destruct (IHl IHrest vl eq_refl) as [Hml Hfl].
      split; [now rewrite map_app, Hmq, Hml | now apply Forall_app].
Qed.

End ChildViews.

(** What [TimeseriesView.__init__] leaves behind for a parameter with
    children. *)
Lemma new_TimeseriesView_with_children
    (reg : registry) (new_TimeseriesConverter : converter_factory)
    (writable : bool) (p : _Parameter) (unit : string) (tps : list Z)
    (timeseries_type : ParameterType) (interpolation_type : InterpolationType)
    (extrapolation_type : ExtrapolationType) (view : TimeseriesView) :
  children p <> [] ->
  new_TimeseriesView reg new_TimeseriesConverter writable p unit tps
    timeseries_type interpolation_type extrapolation_type = Ok view ->
  tv_writable view = writable /\ tv_parameter view = p /\
  tv_data view = None /\ tv_timeseries view = false /\
  exists vs,
    tv_child_data_views view = Some vs /\
    map tv_parameter vs = leaves p /\
    Forall (child_view_of new_TimeseriesConverter unit
              (tc_target (tv_timeseries_converter view)) timeseries_type
              interpolation_type extrapolation_type) vs.
Proof.
  intros Hc Hnew. unfold new_TimeseriesView, new_UnitConverter in Hnew.
  destruct (reg (info_unit p) unit) as [[f g] |]; [| discriminate].
  cbn [bind uc_target] in Hnew.
  destruct (new_TimeseriesConverter (time_points p) tps timeseries_type
              interpolation_type extrapolation_type) as [tc |]; [| discriminate].
  cbn [bind] in Hnew.
  destruct (children p) as [| c cs] eqn:Hcs; [contradiction |].
  destruct (get_timeseries_views_for_children_or_parameter reg
              new_TimeseriesConverter unit (tc_target tc) timeseries_type
              interpolation_type extrapolation_type p) as [vs |] eqn:Hvs;
    [| discriminate].
  cbn [bind] in Hnew. injection Hnew as <-. cbn.
  repeat split. exists vs. split; [reflexivity |].
  now apply (timeseries_views_are_child_views reg new_TimeseriesConverter unit
               (tc_target tc) timeseries_type interpolation_type
               extrapolation_type p).
Qed.


(** Whether it is built read-only or writable, the view of a timeseries
    with children holds one child view per leaf descendant, in depth-first
    order; each is a read-only view of that leaf alone, without buffer,
    that converts from the leaf's unit and time points to the unit and the
    target time points of the outer view. *)
Theorem child_timeseries_views_are_read_only_leaf_views
    (reg : registry) (new_TimeseriesConverter : converter_factory)
    (writable : bool) (p : _Parameter) (unit : string) (tps : list Z)
    (timeseries_type : ParameterType) (interpolation_type : InterpolationType)
    (extrapolation_type : ExtrapolationType) (view : TimeseriesView) :
  children p <> [] ->
  new_TimeseriesView reg new_TimeseriesConverter writable p unit tps
    timeseries_type interpolation_type extrapolation_type = Ok view ->
  tv_writable view = writable /\ tv_parameter view = p /\
  tv_data view = None /\ tv_timeseries view = false /\
  exists vs,
    tv_child_data_views view = Some vs /\
    map tv_parameter vs = leaves p /\
    Forall (child_view_of new_TimeseriesConverter unit
              (tc_target (tv_timeseries_converter view)) timeseries_type
              interpolation_type extrapolation_type) vs.
Proof.
  apply new_TimeseriesView_with_children.
Qed.

Lemma child_timeseries_views_are_read_only_leaf_views_witness :
  exists vs,
    tv_child_data_views Sum.the_view = Some vs /\
    map tv_parameter vs = leaves Sum.total /\
    Forall (child_view_of Sum.factory "A" [0; 5; 10]%Z POINT_TIMESERIES
              Interpolation_LINEAR Extrapolation_CONSTANT) vs.
Proof.
  apply (@child_timeseries_views_are_read_only_leaf_views Scenario.units
           Sum.factory true Sum.total "A"%string [0; 5; 10]%Z POINT_TIMESERIES
           Interpolation_LINEAR Extrapolation_CONSTANT Sum.the_view).
  - discriminate.
  - reflexivity.
Defined.

(** ** Reading an aggregated timeseries *)

Lemma read_without_buffer (s : store) (v : TimeseriesView) (x : list Q) :
  children (tv_parameter v) = [] ->
  tv_data v = None ->
  fst (TimeseriesView__get_values s v) = Ok x ->
  TimeseriesView__read s v
  = (Ok tt,
     set_tv_version (set_tv_dtype (set_tv_data v (Some x)) float64)
       (Some (version (s (pid (tv_parameter v)))))).
Proof.
  intros Hc Hd Hx. rewrite TimeseriesView__read_unfold. unfold read_with.
  rewrite Hd. rewrite get_values_childless in Hx |- * by exact Hc.
  cbn [fst] in Hx. now rewrite Hx.
Qed.

(** The loop of [np.sum] over child views that hold no buffer yet, from the
    second child on. *)
Lemma sum_child_values_from (s : store) :
  forall vs arrays acc,
    Forall (fun v => children (tv_parameter v) = [] /\ tv_data v = None) vs ->
    Forall2 (fun v x => fst (TimeseriesView__get_values s v) = Ok x) vs arrays ->
    fst (sum_child_values (TimeseriesView__read s) vs (Some acc))
    = add_all acc arrays.
Proof.
  induction vs as [| v vs IH]; intros arrays acc Hfresh Hval;
    inversion Hval as [| ? x ? rest Hx Hrest]; subst; [reflexivity |].
  inversion Hfresh as [| ? ? [Hc Hd] Hfresh']; subst.
  cbn [sum_child_values add_all].
  rewrite (read_without_buffer s v Hc Hd Hx).
  replace (tv_data (set_tv_timeseries
                      (set_tv_version
                         (set_tv_dtype (set_tv_data v (Some x)) float64)
                         (Some (version (s (pid (tv_parameter v)))))) true))
    with (Some x) by (destruct v; reflexivity).
  destruct (np_add acc x) as [a1 | e]; [| reflexivity].
  cbn [bind]. specialize (IH rest a1 Hfresh' Hrest).
  destruct (sum_child_values (TimeseriesView__read s) vs (Some a1)).
  exact IH.
Qed.

Lemma sum_child_values_first (s : store) (v : TimeseriesView)
    (vs : list TimeseriesView) (x : list Q) (arrays : list (list Q)) :
  Forall (fun v => children (tv_parameter v) = [] /\ tv_data v = None) (v :: vs) ->
  tv_timeseries v = false ->
  Forall2 (fun v x => fst (TimeseriesView__get_values s v) = Ok x)
    (v :: vs) (x :: arrays) ->
  fst (sum_child_values (TimeseriesView__read s) (v :: vs) None)
  = add_all (map (Qplus 0) x) arrays.
Proof.
  intros Hfresh Hts Hval.
  inversion Hval as [| ? ? ? ? Hx Hrest]; subst.
  inversion Hfresh as [| ? ? [Hc Hd] Hfresh']; subst.
  cbn [sum_child_values]. rewrite Hts.
  rewrite (read_without_buffer s v Hc Hd Hx).
  replace (tv_data (set_tv_timeseries
                      (set_tv_version
                         (set_tv_dtype (set_tv_data v (Some x)) float64)
                         (Some (version (s (pid (tv_parameter v)))))) true))
    with (Some x) by (destruct v; reflexivity).
  pose proof (sum_child_values_from s (map (Qplus 0) x) Hfresh' Hrest) as H.
  destruct (sum_child_values (TimeseriesView__read s) vs _).
  exact H.
Qed.

(** The first read of the values of a view, with or without children, is
    what [_get_values] returns. *)
Lemma first_read_values (s : store) (view : TimeseriesView) :
  tv_data view = None ->
  tv_timeseries view = false ->
  fst (read_values s view) = fst (TimeseriesView__get_values s view).
Proof.
  intros Hd Hts. unfold read_values, TimeseriesView_values. rewrite Hts.
  rewrite TimeseriesView__read_unfold. unfold read_with. rewrite Hd.
  pose proof (get_values_same_view s view) as (_ & Hp & _).
  destruct (TimeseriesView__get_values s view) as [r self1].
  cbn [fst snd] in *. destruct r as [a | e]; [| reflexivity].
  set (view3 := set_tv_timeseries _ true).
  assert (H3 : fst (read_values s view3) = Ok a).
  { apply read_values_in_step; subst view3; destruct self1; cbn in *;
      [reflexivity | now rewrite Hp]. }
  unfold read_values, TimeseriesView_values in H3.
  replace (tv_timeseries view3) with true in H3
    by (subst view3; destruct self1; reflexivity).
  exact H3.
Qed.

Lemma nth_pairwise_sum (a b : list Q) :
  length a = length b ->
  forall i, (i < length a)%nat ->
    nth i (map (fun xy : Q * Q => Qplus (fst xy) (snd xy)) (combine a b)) 0
    = Qplus (nth i a 0) (nth i b 0).
Proof.
  revert b. induction a as [| x a IH]; intros [| y b] Hlen i Hi;
    cbn in Hlen, Hi; try lia; try discriminate.
  destruct i as [| i]; [reflexivity |]. cbn. apply IH; lia.
Qed.

Lemma np_add_same_length (a b : list Q) :
  length a = length b ->
  exists r,
    np_add a b = Ok r /\ length r = length a /\
    forall i, (i < length a)%nat -> nth i r 0 = Qplus (nth i a 0) (nth i b 0).
Proof.
  intros Hlen. unfold np_add.
  replace (Nat.eqb (length a) (length b)) with true
    by (symmetry; now apply Nat.eqb_eq).
  eexists. split; [reflexivity |]. split.
  - rewrite length_map, length_combine. lia.
  - now apply nth_pairwise_sum.
Qed.

(** Arrays of one length add up position by position. *)
Lemma add_all_pointwise (n : nat) :
  forall arrays acc,
    length acc = n ->
    (forall x, In x arrays -> length x = n) ->
    exists r,
      add_all acc arrays = Ok r /\ length r = n /\
      forall i, (i < n)%nat ->
        nth i r 0
        = fold_left Qplus (map (fun x => nth i x 0) arrays) (nth i acc 0).
Proof.
  induction arrays as [| a arrays IH]; intros acc Hacc Hall.
  - exists acc. split; [reflexivity |]. split; [exact Hacc |]. reflexivity.
  - cbn [add_all map fold_left].
    destruct (@np_add_same_length acc a) as (r1 & Hr1 & Hl1 & Hn1).
    { rewrite Hacc. symmetry. apply Hall. now left. }
    rewrite Hr1. cbn [bind].
    destruct (IH r1) as (r & Hr & Hl & Hn).
    { congruence. }
    { intros x Hx. apply Hall. now right. }
    exists r. split; [exact Hr |]. split; [exact Hl |].
    intros i Hi. rewrite (Hn i Hi), Hn1 by lia. reflexivity.
Qed.

(** On its first read, the view of a timeseries with children returns the
    sum of what its child views, one per leaf descendant, return: [0] plus
    the first, plus the second, and so on.  When these arrays all have one
    length, the result has that length and holds at every position the sum
    of the leaves' values there. *)
Theorem aggregated_timeseries_read
    (reg : registry) (new_TimeseriesConverter : converter_factory)
    (s : store) (writable : bool) (p : _Parameter) (unit : string)
    (tps : list Z) (timeseries_type : ParameterType)
    (interpolation_type : InterpolationType)
    (extrapolation_type : ExtrapolationType) (view : TimeseriesView) :
  children p <> [] ->
  new_TimeseriesView reg new_TimeseriesConverter writable p unit tps
    timeseries_type interpolation_type extrapolation_type = Ok view ->
  exists vs,
    tv_child_data_views view = Some vs /\
    map tv_parameter vs = leaves p /\
    forall x arrays,
      Forall2 (fun v a => fst (TimeseriesView__get_values s v) = Ok a)
        vs (x :: arrays) ->
      fst (read_values s view) = add_all (map (Qplus 0) x) arrays /\
      forall n,
        (forall a, In a (x :: arrays) -> length a = n) ->
        exists r,
          fst (read_values s view) = Ok r /\ length r = n /\
          forall i, (i < n)%nat ->
            nth i r 0
            = fold_left Qplus (map (fun a => nth i a 0) (x :: arrays)) 0.
Proof.
  intros Hc Hnew.
  destruct (new_TimeseriesView_with_children _ _ _ _ _ _ _ _ _
              Hc Hnew) as (_ & Hp & Hd & Hts & vs & Hvs & Hmap & Hchild).
  exists vs. split; [exact Hvs |]. split; [exact Hmap |].
  intros x arrays Hval.
  assert (Hsum : fst (read_values s view) = add_all (map (Qplus 0) x) arrays).
  { rewrite first_read_values by assumption.
    unfold TimeseriesView__get_values, get_values_with. rewrite Hp, Hvs.
    destruct (children p) as [| c cs]; [contradiction |].
    destruct vs as [| v vs]; [inversion Hval |].
    assert (Hfresh : Forall (fun v => children (tv_parameter v) = [] /\
                                      tv_data v = None) (v :: vs)).
    { eapply Forall_impl; [| exact Hchild].
      intros w Hw. split; apply Hw. }
    assert (Hv : tv_timeseries v = false)
      by (inversion Hchild as [| ? ? Hw _]; apply Hw).
    pose proof (@sum_child_values_first s v vs x arrays Hfresh Hv Hval) as H.
    destruct (sum_child_values (TimeseriesView__read s) (v :: vs) None).
    exact H. }
  split; [exact Hsum |]. intros n Hall. rewrite Hsum.
  destruct (@add_all_pointwise n arrays (map (Qplus 0) x)) as (r & Hr & Hl & Hn).
  { rewrite length_map. apply Hall. now left. }
  { intros a Ha. apply Hall. now right. }
  exists r. split; [exact Hr |]. split; [exact Hl |].
  intros i Hi. rewrite (Hn i Hi). cbn [map fold_left]. f_equal.
  assert (Hx : (i < length x)%nat) by (rewrite (Hall x); [exact Hi | now left]).
  clear - Hx. revert i Hx. induction x as [| y x IH]; intros i Hi;
    cbn in Hi; [lia |].
  destruct i as [| i]; [reflexivity |]. cbn. apply IH. lia.
Qed.

Lemma aggregated_timeseries_read_witness :
  fst (read_values Sum.both_written Sum.the_view)
  = add_all (map (Qplus 0) [1.0; 2.0; 3.0]) [[10.0; 20.0; 30.0]].
Proof.
  destruct (@aggregated_timeseries_read Scenario.units Sum.factory
              Sum.both_written true Sum.total "A"%string [0; 5; 10]%Z
              POINT_TIMESERIES Interpolation_LINEAR Extrapolation_CONSTANT
              Sum.the_view ltac:(discriminate) eq_refl)
    as (vs & Hvs & _ & H).
  vm_compute in Hvs. injection Hvs as <-.
  apply (H [1.0; 2.0; 3.0] [[10.0; 20.0; 30.0]]).
  repeat constructor.
Defined.

(** ** What a view with a buffer does not see *)

(** A view that holds a buffer in step with its own parameter returns that
    buffer on a read, whatever happened to other parameters: an assignment
    through a view of another parameter, be it a leaf that an aggregated
    view sums, is not seen. *)
Theorem reads_ignore_other_parameters (s s' : store)
    (view other other' : TimeseriesView) (dt : dtype) (d v : list Q)
    (r : result unit) :
  tv_data view = Some d ->
  tv_version view = Some (version (s (pid (tv_parameter view)))) ->
  pid (tv_parameter other) <> pid (tv_parameter view) ->
  WritableTimeseriesView_set_values s other dt v = (r, other', s') ->
  fst (read_values s' view) = Ok d /\ fst (read_values s view) = Ok d.
Proof.
  intros Hd Hk Hp Hset.
  destruct (set_values_outcome _ _ _ _ Hset) as (_ & Hframe & _).
  split; apply read_values_in_step; try assumption.
  rewrite Hframe; [exact Hk |]. intros H. apply Hp. now symmetry.
Qed.

Lemma reads_ignore_other_parameters_witness :
  fst (read_values (snd Stale.after_write) Stale.opened)
  = Ok [11.00; 22.00; 33.00] /\
  fst (read_values Sum.both_written Stale.opened) = Ok [11.00; 22.00; 33.00].
Proof.
  apply (@reads_ignore_other_parameters Sum.both_written
           (snd Stale.after_write) Stale.opened Stale.left_view
           (snd (fst Stale.after_write)) float64 [11.00; 22.00; 33.00]
           [0; 0; 0]
           (fst (fst Stale.after_write))).
  - vm_compute. reflexivity.
  - vm_compute. reflexivity.
  - discriminate.
  - vm_compute. reflexivity.
Defined.

(** [np.asarray(view.values)] reads the parameter on the first access
    only, where it returns what [_get_values] returns; once the wrapper
    exists it returns the buffer as it is, whatever the parameter holds by
    then, and leaves the view alone. *)
Theorem asarray_reads_once (s : store) (view : TimeseriesView) :
  (tv_data view = None -> tv_timeseries view = false ->
   fst (asarray_values s view) = fst (TimeseriesView__get_values s view)) /\
  (forall d, tv_timeseries view = true -> tv_data view = Some d ->
             forall s', asarray_values s' view = (Ok d, view)).
Proof.
  split.
  - intros Hd Hts. unfold asarray_values, TimeseriesView_values. rewrite Hts.
    rewrite TimeseriesView__read_unfold. unfold read_with. rewrite Hd.
    destruct (TimeseriesView__get_values s view) as [r self1].
    cbn [fst snd]. destruct r as [a | e]; [| reflexivity].
    unfold Timeseries___array__. destruct self1; reflexivity.
  - intros d Hts Hd s'. unfold asarray_values, TimeseriesView_values.
    rewrite Hts. unfold Timeseries___array__. now rewrite Hd.
Qed.

Lemma asarray_reads_once_witness :
  asarray_values (snd Coarse.after_item) Coarse.opened
  = (Ok [1.0; 2.0; 3.0], Coarse.opened).
Proof.
  apply (proj2 (asarray_reads_once Scenario.coarse_written Coarse.opened)).
  - reflexivity.
  - vm_compute. reflexivity.
Defined.

(** ** Aggregated reads after the assignments of the test *)

(** C3 (the code at the failing input).
    [test_scalar_parameter_view_aggregation]: 0.6, 0.3 and 0.1 are assigned
    through writable views of [(Top, a, 1)], [(Top, a, 2)] and [(Top, b)].
    The assignments succeed and the leaves hold the values, but no leaf is
    marked as written, so reading [(Top, a)] and reading [(Top)] raise
    [ParameterEmptyError] instead of returning the sums. *)
Theorem aggregate_read_after_assignments_raises :
  exists s,
    Aggregation.after_assignments = Ok s /\
    data (s 2%nat) = PFloat (6 # 10) /\
    data (s 3%nat) = PFloat (3 # 10) /\
    data (s 4%nat) = PFloat (1 # 10) /\
    (view <- new_ScalarView Scenario.units Scenario.a "dimensionless" ;;
     ScalarView_value s view) = Raise ParameterEmptyError /\
    (view <- new_ScalarView Scenario.units Scenario.Top "dimensionless" ;;
     ScalarView_value s view) = Raise ParameterEmptyError.
Proof.
  eexists. split; [reflexivity |]. repeat split; reflexivity.
Qed.

(** The scalar setter changes the [empty] property of no parameter, not
    even of its own. *)
Lemma scalar_setter_keeps_empty (s s1 : store) (view : ScalarView) (v : Q)
    (p : _Parameter) :
  WritableScalarView_set_value s view v = Ok s1 ->
  empty s1 p = empty s p.
Proof.
  unfold WritableScalarView_set_value. intros H. injection H as <-.
  unfold empty, upd.
  destruct (Nat.eqb (pid p) (pid (sv_parameter view))) eqn:He;
    [| reflexivity].
  apply Nat.eqb_eq in He. now rewrite He.
Qed.

